(** * bookable_event_logger: a shallow embedding of [logger.py]

    The module publishes structured JSON events to a Pub/Sub topic.  This
    development embeds [EventLogger], [NoOpEventLogger], [init_event_logger]
    and [get_event_logger] together with the parts of the Python runtime they
    lean on ([json.dumps], [uuid.uuid4], [datetime.isoformat], [str.replace],
    [os.getenv]) and proves the properties the specification states about
    them.

    Layout: Python strings and formatting; exceptions and the effect monad;
    the runtime helpers; the module itself; the JSON and ISO-8601 grammars
    the statements refer to; then the lemmas and theorems. *)

From Stdlib Require Import NArith ZArith Lia Ascii String.
From stdpp Require Import gmap list.

Local Open Scope N_scope.

(* ===================================================================== *)
(** * Python strings *)
(* ===================================================================== *)

(** A Python [str] is a sequence of Unicode code points. *)
Abbreviation str := (list N).

(** An ASCII literal as a Python string. *)
Definition py (s : string) : str := N_of_ascii <$> list_ascii_of_string s.

(** [sep.join(parts)] *)
Fixpoint join (sep : str) (parts : list str) : str :=
  match parts with
  | [] => []
  | p :: rest =>
      match rest with
      | [] => p
      | _ :: _ => p ++ sep ++ join sep rest
      end
  end.

Fixpoint str_eqb (a b : str) : bool :=
  match a, b with
  | [], [] => true
  | x :: a', y :: b' => (x =? y) && str_eqb a' b'
  | _, _ => false
  end.

(** [s.startswith(pre)] *)
Fixpoint startswith (s pre : str) : bool :=
  match pre, s with
  | [], _ => true
  | p :: pre', c :: s' => (c =? p) && startswith s' pre'
  | _ :: _, [] => false
  end.

(** [s.endswith(suf)] *)
Definition endswith (s suf : str) : bool :=
  (length suf <=? length s)%nat && str_eqb (drop (length s - length suf)%nat s) suf.

(** [needle in hay] *)
Fixpoint contains (needle hay : str) : bool :=
  startswith hay needle ||
  match hay with
  | [] => false
  | _ :: hay' => contains needle hay'
  end.

(** [s.replace(old, new)]: every non-overlapping occurrence, scanning from
    the left.  [skip] counts the characters of a match still to be dropped. *)
Fixpoint replace_from (old new : str) (skip : nat) (s : str) : str :=
  match s with
  | [] => []
  | c :: s' =>
      match skip with
      | S k => replace_from old new k s'
      | O =>
          if startswith s old
          then new ++ replace_from old new (length old - 1)%nat s'
          else c :: replace_from old new 0%nat s'
      end
  end.

Definition replace (old new s : str) : str :=
  match old with
  | [] => new ++ flat_map (fun c => c :: new) s
  | _ :: _ => replace_from old new 0%nat s
  end.

(** [s[a:b]] for [0 <= a <= b] *)
Definition slice (a b : nat) (s : str) : str := take (b - a)%nat (drop a s).

(* --------------------------------------------------------------------- *)
(** ** Integer formatting *)

(** The digit characters [0-9a-z] of Python's integer formatting. *)
Definition digit_char (d : N) : N := if d <? 10 then 48 + d else 87 + d.

Fixpoint to_base_fuel (fuel : nat) (b n : N) (acc : str) : str :=
  match fuel with
  | O => acc
  | S fuel' =>
      let acc' := digit_char (n mod b) :: acc in
      if n / b =? 0 then acc' else to_base_fuel fuel' b (n / b) acc'
  end.

(** The digits of [n] in base [b >= 2], most significant first; [n] has at
    most [log2 n + 1] of them. *)
Definition to_base (b n : N) : str :=
  to_base_fuel (S (N.to_nat (N.log2 n))) b n [].

(** Left padding with ['0'] up to [width], as the [0<width>] format flag. *)
Definition zfill (width : nat) (s : str) : str :=
  replicate (width - length s)%nat 48 ++ s.

(** ["%0<width>d" % n] for [n >= 0] *)
Definition fmt_0d (width : nat) (n : N) : str := zfill width (to_base 10 n).

(** ["%0<width>x" % n], also ['{0:0<width>x}'.format(n)] *)
Definition fmt_0x (width : nat) (n : N) : str := zfill width (to_base 16 n).

(** [int.__repr__] *)
Definition int_repr (n : Z) : str :=
  if (n <? 0)%Z then py "-" ++ to_base 10 (Z.abs_N n) else to_base 10 (Z.to_N n).

(* ===================================================================== *)
(** * Python values *)
(* ===================================================================== *)

(** A [float], by what [repr] sees of it: not-a-number, an infinity, or a
    finite value given by the shortest decimal digit string that reads back
    to it and the position of the decimal point relative to that string
    (the output of [_Py_dg_dtoa] in mode 0).  Zero has digits ["0"] and
    decimal point position 1. *)
Inductive pyfloat :=
| FNaN
| FInf (neg : bool)
| FFinite (neg : bool) (digits : list N) (decpt : Z).

Unset Elimination Schemes.

(** The values that reach [json.dumps] here.  A [dict] keeps its insertion
    order, which is the order [json.dumps] emits; keys are [str], as the
    annotations [Dict[str, Any]] say.  [PObject] stands for any object the
    encoder has no rule for. *)
Inductive pyval :=
| PNone
| PBool (b : bool)
| PInt (n : Z)
| PFloat (f : pyfloat)
| PStr (s : str)
| PList (xs : list pyval)
| PDict (kvs : list (str * pyval))
| PObject (type_name : str).

Set Elimination Schemes.

Abbreviation pydict := (list (str * pyval)).

(** [d.get(k)] *)
Fixpoint dict_get (k : str) (d : pydict) : option pyval :=
  match d with
  | [] => None
  | (k', v) :: d' => if str_eqb k k' then Some v else dict_get k d'
  end.

(** Truth value of an [Optional[str]]: [None] and the empty string are
    false. *)
Definition truthy_str (x : option str) : bool :=
  match x with
  | Some (_ :: _) => true
  | _ => false
  end.

(** [x or y] on [Optional[str]] operands *)
Definition or_str (x y : option str) : option str :=
  if truthy_str x then x else y.

(** [x or {}] on an [Optional[Dict]] operand: [None] and [{}] are false. *)
Definition or_empty_dict (x : option pydict) : pydict :=
  match x with
  | Some (kv :: d) => kv :: d
  | _ => []
  end.

(** [str(x)] for an [Optional[str]], as ["%s"] formatting renders it. *)
Definition str_of (x : option str) : str :=
  match x with
  | Some s => s
  | None => py "None"
  end.

(** An [Optional[str]] as a value. *)
Definition val_of (x : option str) : pyval :=
  match x with
  | Some s => PStr s
  | None => PNone
  end.

(* ===================================================================== *)
(** * Exceptions and results *)
(* ===================================================================== *)

Inductive exn :=
| ValueError (msg : str)
| TypeError (msg : str)
| UnicodeEncodeError (msg : str)
| OtherException (cls msg : str)
    (* any other subclass of [Exception], such as a transport error *)
| BaseExceptionOnly (cls msg : str).
    (* [KeyboardInterrupt], [SystemExit], ...: not subclasses of [Exception] *)

(** [isinstance(e, Exception)], what [except Exception] catches. *)
Definition is_Exception (e : exn) : bool :=
  match e with
  | BaseExceptionOnly _ _ => false
  | _ => true
  end.

Inductive result (A : Type) :=
| Ok (a : A)
| Raise (e : exn).
Arguments Ok {A} a.
Arguments Raise {A} e.

Definition result_bind {A B} (r : result A) (k : A -> result B) : result B :=
  match r with
  | Ok a => k a
  | Raise e => Raise e
  end.

Notation "'try!' x ':=' r 'in' k" := (result_bind r (fun x => k))
  (at level 10, x name, r at level 100, k at level 200).

Definition mapM_result {A B} (f : A -> result B) : list A -> result (list B) :=
  fix go l :=
    match l with
    | [] => Ok []
    | x :: rest =>
        try! y := f x in
        try! ys := go rest in
        Ok (y :: ys)
    end.

(* ===================================================================== *)
(** * json.dumps with its default options *)
(* ===================================================================== *)

(** [ESCAPE_ASCII]: the characters that are replaced are the backslash, the
    double quote and everything outside the range from space to tilde. *)
Definition needs_escape (c : N) : bool :=
  (c =? 92) || (c =? 34) || (c <? 32) || (126 <? c).

(** The short escapes of [ESCAPE_DCT]. *)
Definition escape_dct (c : N) : option str :=
  if c =? 92 then Some (py "\\")
  else if c =? 34 then Some [92; 34]
  else if c =? 8 then Some (py "\b")
  else if c =? 12 then Some (py "\f")
  else if c =? 10 then Some (py "\n")
  else if c =? 13 then Some (py "\r")
  else if c =? 9 then Some (py "\t")
  else None.

(** The [replace] callback of [py_encode_basestring_ascii]; the remaining
    control characters take the [\u00XX] entries [ESCAPE_DCT] holds for
    them, which the first branch below also yields. *)
Definition replace_match (c : N) : str :=
  match escape_dct c with
  | Some r => r
  | None =>
      if c <? 0x10000 then py "\u" ++ fmt_0x 4 c
      else
        let n := c - 0x10000 in
        let s1 := N.lor 0xd800 (N.land (N.shiftr n 10) 0x3ff) in
        let s2 := N.lor 0xdc00 (N.land n 0x3ff) in
        py "\u" ++ fmt_0x 4 s1 ++ py "\u" ++ fmt_0x 4 s2
  end.

Definition encode_basestring_ascii (s : str) : str :=
  [34] ++ flat_map (fun c => if needs_escape c then replace_match c else [c]) s ++ [34].

(** ["%+.02d" % e] *)
Definition fmt_exponent (e : Z) : str :=
  (if (e <? 0)%Z then py "-" else py "+") ++ fmt_0d 2 (Z.abs_N e).

(** [float.__repr__] of a finite value: [format_float_short] with format
    code ['r'] and [Py_DTSF_ADD_DOT_0]. *)
Definition float_repr_finite (neg : bool) (digits : list N) (decpt : Z) : str :=
  let ds := digit_char <$> digits in
  let len := Z.of_nat (length digits) in
  let sign := if neg then py "-" else [] in
  if ((decpt <=? -4) || (16 <? decpt))%Z then
    (* exponent form: one digit, the rest after the point, no trailing point *)
    sign ++ take 1 ds
         ++ (match drop 1 ds with [] => [] | frac => py "." ++ frac end)
         ++ py "e" ++ fmt_exponent (decpt - 1)
  else if (decpt <=? 0)%Z then
    sign ++ py "0." ++ replicate (Z.to_nat (- decpt)) 48 ++ ds
  else if (decpt <? len)%Z then
    sign ++ take (Z.to_nat decpt) ds ++ py "." ++ drop (Z.to_nat decpt) ds
  else
    sign ++ ds ++ replicate (Z.to_nat (decpt - len)) 48 ++ py ".0".

(** [floatstr] of [json.encoder], [allow_nan=True] *)
Definition floatstr (f : pyfloat) : str :=
  match f with
  | FNaN => py "NaN"
  | FInf false => py "Infinity"
  | FInf true => py "-Infinity"
  | FFinite neg digits decpt => float_repr_finite neg digits decpt
  end.

(** [json.dumps(v)]: [ensure_ascii=True], separators [", "] and [": "],
    [allow_nan=True], no indentation, keys in insertion order. *)
Fixpoint json_dumps (v : pyval) : result str :=
  match v with
  | PNone => Ok (py "null")
  | PBool true => Ok (py "true")
  | PBool false => Ok (py "false")
  | PInt n => Ok (int_repr n)
  | PFloat f => Ok (floatstr f)
  | PStr s => Ok (encode_basestring_ascii s)
  | PList xs =>
      match xs with
      | [] => Ok (py "[]")
      | _ :: _ =>
          try! items := mapM_result json_dumps xs in
          Ok (py "[" ++ join (py ", ") items ++ py "]")
      end
  | PDict kvs =>
      match kvs with
      | [] => Ok (py "{}")
      | _ :: _ =>
          try! items :=
            mapM_result
              (fun kv =>
                 match kv with
                 | (k, v') =>
                     try! s := json_dumps v' in
                     Ok (encode_basestring_ascii k ++ py ": " ++ s)
                 end) kvs in
          Ok (py "{" ++ join (py ", ") items ++ py "}")
      end
  | PObject type_name =>
      Raise (TypeError (py "Object of type " ++ type_name
                          ++ py " is not JSON serializable"))
  end.

(** [s.encode("utf-8")]; a surrogate code point cannot be encoded. *)
Definition utf8_char (c : N) : result (list N) :=
  if c <? 0x80 then Ok [c]
  else if c <? 0x800 then
    Ok [N.lor 0xc0 (N.shiftr c 6); N.lor 0x80 (N.land c 0x3f)]
  else if (0xd800 <=? c) && (c <=? 0xdfff) then
    Raise (UnicodeEncodeError (py "surrogates not allowed"))
  else if c <? 0x10000 then
    Ok [N.lor 0xe0 (N.shiftr c 12);
        N.lor 0x80 (N.land (N.shiftr c 6) 0x3f);
        N.lor 0x80 (N.land c 0x3f)]
  else
    Ok [N.lor 0xf0 (N.shiftr c 18);
        N.lor 0x80 (N.land (N.shiftr c 12) 0x3f);
        N.lor 0x80 (N.land (N.shiftr c 6) 0x3f);
        N.lor 0x80 (N.land c 0x3f)].

Definition encode_utf8 (s : str) : result (list N) :=
  try! chunks := mapM_result utf8_char s in
  Ok (concat chunks).

(* ===================================================================== *)
(** * uuid and datetime *)
(* ===================================================================== *)

(** [UUID(bytes=b, version=4).int] for the 16 random bytes [r]: the variant
    and version bits are forced ([i &= ~m] is [N.ldiff i m]). *)
Definition uuid4_int (r : N) : N :=
  let i := N.land r (N.ones 128) in
  let i := N.ldiff i (N.shiftl 0xc000 48) in
  let i := N.lor i (N.shiftl 0x8000 48) in
  let i := N.ldiff i (N.shiftl 0xf000 64) in
  N.lor i (N.shiftl 4 76).

(** [UUID.__str__] *)
Definition uuid_str (i : N) : str :=
  let hex := fmt_0x 32 i in
  slice 0 8 hex ++ py "-" ++ slice 8 12 hex ++ py "-" ++ slice 12 16 hex
    ++ py "-" ++ slice 16 20 hex ++ py "-" ++ drop 20 hex.

(** An aware [datetime] in [timezone.utc]. *)
Record datetime := {
  year : N;
  month : N;
  day : N;
  hour : N;
  minute : N;
  second : N;
  microsecond : N
}.

(** [_format_offset] for an offset of whole seconds. *)
Definition format_offset (off : Z) : str :=
  let a := Z.abs_N off in
  (if (off <? 0)%Z then py "-" else py "+")
    ++ fmt_0d 2 (a / 3600) ++ py ":" ++ fmt_0d 2 ((a mod 3600) / 60)
    ++ (if a mod 60 =? 0 then [] else py ":" ++ fmt_0d 2 (a mod 60)).

(** [timezone.utc.utcoffset(dt)] *)
Definition utc_offset : Z := 0.

(** [datetime.isoformat()] with the default separator and [timespec='auto'] *)
Definition isoformat (d : datetime) : str :=
  fmt_0d 4 (year d) ++ py "-" ++ fmt_0d 2 (month d) ++ py "-" ++ fmt_0d 2 (day d)
    ++ py "T" ++ fmt_0d 2 (hour d) ++ py ":" ++ fmt_0d 2 (minute d)
    ++ py ":" ++ fmt_0d 2 (second d)
    ++ (if microsecond d =? 0 then [] else py "." ++ fmt_0d 6 (microsecond d))
    ++ format_offset utc_offset.

(* ===================================================================== *)
(** * The world outside the module, and the effect monad *)
(* ===================================================================== *)

(** Handle returned by a successful [publish]. *)
Inductive Future := MkFuture (handle : N).

Inductive Credentials := MkCredentials (info : str).

(** [pubsub_v1.PublisherClient]: [publish(topic, payload)] returns a future
    or raises. *)
Record PublisherClient := {
  publish : str -> list N -> result Future
}.

(** [PublisherClient.topic_path] *)
Definition topic_path_of (project topic : option str) : str :=
  py "projects/" ++ str_of project ++ py "/topics/" ++ str_of topic.

Record EventLogger := {
  project_id : option str;
  topic_name : option str;
  environment : option str;
  service_name : option str;
  credentials_path : option str;
  publisher : PublisherClient;
  topic_path : str
}.

Inductive LogLevel := DEBUG | INFO | WARNING | ERROR.

Record World := {
  environ : gmap str str;                       (* os.environ *)
  urandom : nat -> N;                           (* successive os.urandom(16) *)
  urandom_reads : nat;
  clock : nat -> datetime;                      (* successive readings of the UTC clock *)
  clock_reads : nat;
  service_account_file : option str -> result Credentials;
  publisher_client : Credentials -> result PublisherClient;
  log_records : list (LogLevel * str);          (* emitted through [logging] *)
  _event_logger : option EventLogger            (* the module global *)
}.

(** Computations that read and change the world and may raise. *)
Definition M (A : Type) : Type := World -> result A * World.

Definition ret {A} (a : A) : M A := fun w => (Ok a, w).
Definition raise {A} (e : exn) : M A := fun w => (Raise e, w).
Definition bind {A B} (m : M A) (k : A -> M B) : M B :=
  fun w =>
    match m w with
    | (Ok a, w') => k a w'
    | (Raise e, w') => (Raise e, w')
    end.
Definition lift {A} (r : result A) : M A := fun w => (r, w).

Notation "'let*' x ':=' m 'in' k" := (bind m (fun x => k))
  (at level 10, x name, m at level 100, k at level 200).
Notation "m ';;' k" := (bind m (fun _ => k))
  (at level 100, right associativity).

(** [os.getenv(key)] and [os.getenv(key, default)] *)
Definition getenv (key : str) : M (option str) :=
  fun w => (Ok (environ w !! key), w).
Definition getenv_default (key dflt : str) : M (option str) :=
  fun w => (Ok (Some (default dflt (environ w !! key))), w).

Definition os_urandom16 : M N :=
  fun w => (Ok (urandom w (urandom_reads w)),
            {| environ := environ w; urandom := urandom w;
               urandom_reads := S (urandom_reads w);
               clock := clock w; clock_reads := clock_reads w;
               service_account_file := service_account_file w;
               publisher_client := publisher_client w;
               log_records := log_records w;
               _event_logger := _event_logger w |}).

(** [str(uuid.uuid4())] *)
Definition uuid4 : M str :=
  let* r := os_urandom16 in
  ret (uuid_str (uuid4_int r)).

(** [datetime.now(timezone.utc)] *)
Definition datetime_now_utc : M datetime :=
  fun w => (Ok (clock w (clock_reads w)),
            {| environ := environ w; urandom := urandom w;
               urandom_reads := urandom_reads w;
               clock := clock w; clock_reads := S (clock_reads w);
               service_account_file := service_account_file w;
               publisher_client := publisher_client w;
               log_records := log_records w;
               _event_logger := _event_logger w |}).

(** [logger.<level>(msg)] *)
Definition log_emit (lvl : LogLevel) (msg : str) : M unit :=
  fun w => (Ok tt,
            {| environ := environ w; urandom := urandom w;
               urandom_reads := urandom_reads w;
               clock := clock w; clock_reads := clock_reads w;
               service_account_file := service_account_file w;
               publisher_client := publisher_client w;
               log_records := log_records w ++ [(lvl, msg)];
               _event_logger := _event_logger w |}).

(** [global _event_logger; _event_logger = v] *)
Definition set_event_logger (v : option EventLogger) : M unit :=
  fun w => (Ok tt,
            {| environ := environ w; urandom := urandom w;
               urandom_reads := urandom_reads w;
               clock := clock w; clock_reads := clock_reads w;
               service_account_file := service_account_file w;
               publisher_client := publisher_client w;
               log_records := log_records w;
               _event_logger := v |}).

Definition load_credentials (path : option str) : M Credentials :=
  fun w => (service_account_file w path, w).

Definition new_publisher_client (c : Credentials) : M PublisherClient :=
  fun w => (publisher_client w c, w).

(* ===================================================================== *)
(** * logger.py *)
(* ===================================================================== *)

(** The [required] dict of [EventLogger.__init__], in insertion order. *)
Definition required_config (project topic env service creds : option str)
  : list (str * option str) :=
  [ (py "LOG_GCP_PROJECT / project_id", project);
    (py "LOG_TOPIC / topic_name", topic);
    (py "LOG_ENVIRONMENT / environment", env);
    (py "LOG_SERVICE_NAME / service_name", service);
    (py "LOG_GCP_CREDENTIALS / credentials_path", creds) ].

(** [[name for name, value in required.items() if not value]] *)
Definition missing_config (required : list (str * option str)) : list str :=
  fst <$> filter (fun nv => truthy_str nv.2 = false) required.

(** [EventLogger.__init__] *)
Definition EventLogger_init
    (project_id topic_name environment service_name credentials_path : option str)
  : M EventLogger :=
  (* Resolve config *)
  let* env_project := getenv (py "LOG_GCP_PROJECT") in
  let project_id := or_str project_id env_project in
  let* env_topic := getenv_default (py "LOG_TOPIC") (py "events") in
  let topic_name := or_str topic_name env_topic in
  let* env_environment := getenv (py "LOG_ENVIRONMENT") in
  let environment := or_str environment env_environment in
  let* env_service := getenv (py "LOG_SERVICE_NAME") in
  let service_name := or_str service_name env_service in
  let* env_creds := getenv (py "LOG_GCP_CREDENTIALS") in
  let credentials_path := or_str credentials_path env_creds in
  let missing :=
    missing_config
      (required_config project_id topic_name environment service_name
                       credentials_path) in
  match missing with
  | _ :: _ =>
      raise (ValueError (py "Missing required config for EventLogger: "
                           ++ join (py ", ") missing))
  | [] =>
      let* credentials := load_credentials credentials_path in
      let* publisher := new_publisher_client credentials in
      let topic_path := topic_path_of project_id topic_name in
      log_emit DEBUG
        (py "EventLogger initialized for service=" ++ str_of service_name
           ++ py ", environment=" ++ str_of environment
           ++ py ", topic=" ++ topic_path) ;;
      ret {| project_id := project_id;
             topic_name := topic_name;
             environment := environment;
             service_name := service_name;
             credentials_path := credentials_path;
             publisher := publisher;
             topic_path := topic_path |}
  end.

(** [EventLogger._build_event] *)
Definition _build_event (self : EventLogger)
    (event_type level : str) (data : option pydict)
    (service correlation_id : option str) (actor : option pydict)
  : M pydict :=
  let service_name := or_str service (service_name self) in
  let actor_obj := or_empty_dict actor in
  let data_obj := or_empty_dict data in
  let* event_id := uuid4 in
  let* correlation_id :=
    (if truthy_str correlation_id then ret (str_of correlation_id) else uuid4) in
  let* now := datetime_now_utc in
  let created_at := replace (py "+00:00") (py "Z") (isoformat now) in
  (* actor and data are JSON-encoded strings *)
  let* actor_json := lift (json_dumps (PDict actor_obj)) in
  let* data_json := lift (json_dumps (PDict data_obj)) in
  ret [ (py "event_id", PStr event_id);
        (py "correlation_id", PStr correlation_id);
        (py "service", val_of service_name);
        (py "event_type", PStr event_type);
        (py "level", PStr level);
        (py "environment", val_of (environment self));
        (py "created_at", PStr created_at);
        (py "actor", PStr actor_json);
        (py "data", PStr data_json) ].

(** [str(event["event_id"])] inside a log message *)
Definition event_id_text (event : pydict) : str :=
  match dict_get (py "event_id") event with
  | Some (PStr s) => s
  | _ => []
  end.

(** [str(e)] inside a log message *)
Definition exn_text (e : exn) : str :=
  match e with
  | ValueError m | TypeError m | UnicodeEncodeError m => m
  | OtherException _ m | BaseExceptionOnly _ m => m
  end.

(** [json.dumps(event).encode("utf-8")] *)
Definition payload_of (event : pydict) : result (list N) :=
  try! text := json_dumps (PDict event) in
  encode_utf8 text.

(** The value under [key] in the envelope a call returned, if it returned
    one. *)
Definition built_field {A} (key : str) (r : result pydict * A) : option pyval :=
  match r with
  | (Ok event, _) => dict_get key event
  | (Raise _, _) => None
  end.

(** [EventLogger.log_event]: publish an event in the agreed schema. *)
Definition log_event (self : EventLogger)
    (event_type level : str) (data : option pydict)
    (service correlation_id : option str) (actor : option pydict)
  : M (pydict * option Future) :=
  let* event :=
    _build_event self event_type level data service correlation_id actor in
  let* payload := lift (payload_of event) in
  log_emit INFO (py "[EventLogger] " ++ event_type ++ py " " ++ level
                   ++ py " - " ++ event_id_text event) ;;
  match publish (publisher self) (topic_path self) payload with
  | Ok future =>
      log_emit DEBUG (py "Published event " ++ event_id_text event
                        ++ py " to " ++ topic_path self) ;;
      ret (event, Some future)
  | Raise e =>
      if is_Exception e then
        log_emit ERROR (py "Failed to publish event to Pub/Sub: " ++ exn_text e) ;;
        ret (event, None)
      else raise e
  end.

(** [EventLogger.log]: generic dynamic-level method. *)
Definition log (self : EventLogger) (level event_type : str)
    (correlation_id : option str) (data actor : option pydict)
    (service : option str) : M (pydict * option Future) :=
  log_event self event_type level (Some (or_empty_dict data))
            service correlation_id actor.

Definition debug (self : EventLogger) (event_type : str)
    (correlation_id : option str) (data actor : option pydict)
    (service : option str) : M (pydict * option Future) :=
  log_event self event_type (py "debug") (Some (or_empty_dict data))
            service correlation_id actor.

Definition info (self : EventLogger) (event_type : str)
    (correlation_id : option str) (data actor : option pydict)
    (service : option str) : M (pydict * option Future) :=
  log_event self event_type (py "info") (Some (or_empty_dict data))
            service correlation_id actor.

Definition warning (self : EventLogger) (event_type : str)
    (correlation_id : option str) (data actor : option pydict)
    (service : option str) : M (pydict * option Future) :=
  log_event self event_type (py "warning") (Some (or_empty_dict data))
            service correlation_id actor.

Definition error (self : EventLogger) (event_type : str)
    (correlation_id : option str) (data actor : option pydict)
    (service : option str) : M (pydict * option Future) :=
  log_event self event_type (py "error") (Some (or_empty_dict data))
            service correlation_id actor.

(** [NoOpEventLogger.__getattr__]: whatever the attribute name, the result
    is [_noop], which ignores its positional and keyword arguments. *)
Definition NoOpEventLogger_getattr (name : str)
  : list pyval -> pydict -> pydict * option Future :=
  fun args kwargs => ([], None).

(** What [get_event_logger] can return. *)
Inductive AnyLogger :=
| Real (self : EventLogger)
| NoOp.

(** [init_event_logger]: the global is assigned once the constructor has
    returned. *)
Definition init_event_logger
    (project_id topic_name environment service_name credentials_path : option str)
  : M EventLogger :=
  let* lg := EventLogger_init project_id topic_name environment service_name
                              credentials_path in
  set_event_logger (Some lg) ;;
  (let '{| service_name := lg_service; environment := lg_environment |} := lg in
   log_emit INFO (py "EventLogger initialized for service="
                    ++ str_of lg_service
                    ++ py ", environment=" ++ str_of lg_environment)) ;;
  ret lg.

(** [get_event_logger] *)
Definition get_event_logger : M AnyLogger :=
  fun w =>
    match _event_logger w with
    | None =>
        (log_emit DEBUG (py "EventLogger not initialized, using NoOpEventLogger") ;;
         ret NoOp) w
    | Some lg => (Ok (Real lg), w)
    end.

(** The operations of the facade, and a call of one of them on whatever
    [get_event_logger] returned: attribute lookup finds the method on an
    [EventLogger] and falls to [__getattr__] on a [NoOpEventLogger]. *)
Inductive operation := op_log_event | op_log | op_debug | op_info | op_warning | op_error.

Definition operation_name (op : operation) : str :=
  match op with
  | op_log_event => py "log_event"
  | op_log => py "log"
  | op_debug => py "debug"
  | op_info => py "info"
  | op_warning => py "warning"
  | op_error => py "error"
  end.

Record call_args := {
  arg_event_type : str;
  arg_level : str;
  arg_correlation_id : option str;
  arg_data : option pydict;
  arg_actor : option pydict;
  arg_service : option str
}.

Definition kwargs_of (a : call_args) : pydict :=
  [ (py "event_type", PStr (arg_event_type a));
    (py "level", PStr (arg_level a));
    (py "correlation_id", val_of (arg_correlation_id a));
    (py "data", match arg_data a with Some d => PDict d | None => PNone end);
    (py "actor", match arg_actor a with Some d => PDict d | None => PNone end);
    (py "service", val_of (arg_service a)) ].

Definition call (l : AnyLogger) (op : operation) (a : call_args)
  : M (pydict * option Future) :=
  match l with
  | NoOp => ret (NoOpEventLogger_getattr (operation_name op) [] (kwargs_of a))
  | Real self =>
      match op with
      | op_log_event =>
          log_event self (arg_event_type a) (arg_level a) (arg_data a)
                    (arg_service a) (arg_correlation_id a) (arg_actor a)
      | op_log =>
          log self (arg_level a) (arg_event_type a) (arg_correlation_id a)
              (arg_data a) (arg_actor a) (arg_service a)
      | op_debug =>
          debug self (arg_event_type a) (arg_correlation_id a)
                (arg_data a) (arg_actor a) (arg_service a)
      | op_info =>
          info self (arg_event_type a) (arg_correlation_id a)
               (arg_data a) (arg_actor a) (arg_service a)
      | op_warning =>
          warning self (arg_event_type a) (arg_correlation_id a)
                  (arg_data a) (arg_actor a) (arg_service a)
      | op_error =>
          error self (arg_event_type a) (arg_correlation_id a)
                (arg_data a) (arg_actor a) (arg_service a)
      end
  end.

(* --------------------------------------------------------------------- *)
(** ** Concrete worlds used in the examples *)

Definition sample_clock : datetime :=
  {| year := 2024; month := 2; day := 29; hour := 23; minute := 5;
     second := 9; microsecond := 1500 |}.

Definition ok_transport : PublisherClient :=
  {| publish := fun _ _ => Ok (MkFuture 1) |}.

Definition failing_transport : PublisherClient :=
  {| publish := fun _ _ =>
       Raise (OtherException (py "ServiceUnavailable") (py "503 unavailable")) |}.

(** A process freshly started with the given environment variables and
    transport: nothing logged, the module global still [None]. *)
Definition fresh_world (env : gmap str str) (transport : PublisherClient) : World :=
  {| environ := env;
     urandom := fun i =>
       match i with
       | O => 0x0123456789abcdef0123456789abcdef
       | S _ => 0x0123456789abcdef0123456789abcdf0
       end;
     urandom_reads := 0;
     clock := fun _ => sample_clock;
     clock_reads := 0;
     service_account_file := fun path =>
       match path with
       | Some p => Ok (MkCredentials p)
       | None => Raise (TypeError (py "expected str, bytes or os.PathLike object"))
       end;
     publisher_client := fun _ => Ok transport;
     log_records := [];
     _event_logger := None |}.

Definition full_env : gmap str str :=
  <[py "LOG_GCP_PROJECT" := py "bookings-prod"]>
  (<[py "LOG_ENVIRONMENT" := py "production"]>
  (<[py "LOG_SERVICE_NAME" := py "checkout-api"]>
  (<[py "LOG_GCP_CREDENTIALS" := py "/etc/sa.json"]> ∅))).

Definition sample_logger (transport : PublisherClient) : EventLogger :=
  {| project_id := Some (py "bookings-prod");
     topic_name := Some (py "events");
     environment := Some (py "production");
     service_name := Some (py "checkout-api");
     credentials_path := Some (py "/etc/sa.json");
     publisher := transport;
     topic_path := py "projects/bookings-prod/topics/events" |}.

(* ===================================================================== *)
(** * What the statements refer to *)
(* ===================================================================== *)

(* --------------------------------------------------------------------- *)
(** ** The JSON grammar of RFC 8259 *)

Definition is_ws (c : N) : bool := (c =? 32) || (c =? 9) || (c =? 10) || (c =? 13).
Definition is_digit (c : N) : bool := (48 <=? c) && (c <=? 57).
Definition is_digit19 (c : N) : bool := (49 <=? c) && (c <=? 57).
Definition is_hex (c : N) : bool :=
  is_digit c || ((97 <=? c) && (c <=? 102)) || ((65 <=? c) && (c <=? 70)).

(** The character after a backslash in a two-character escape:
    quotation mark, backslash, slash, b, f, n, r, t. *)
Definition is_escape_letter (c : N) : bool :=
  (c =? 34) || (c =? 92) || (c =? 47) || (c =? 98) || (c =? 102)
  || (c =? 110) || (c =? 114) || (c =? 116).

(** A character that may stand unescaped inside a string. *)
Definition is_unescaped (c : N) : bool :=
  (32 <=? c) && negb (c =? 34) && negb (c =? 92) && (c <=? 0x10FFFF).

Definition json_ws (s : str) : Prop := forallb is_ws s = true.

Definition json_digits (s : str) : Prop := s <> [] /\ forallb is_digit s = true.

Inductive json_int : str -> Prop :=
| json_int_zero : json_int [48]
| json_int_pos d ds :
    is_digit19 d = true -> forallb is_digit ds = true -> json_int (d :: ds).

Inductive json_frac : str -> Prop :=
| json_frac_none : json_frac []
| json_frac_some ds : json_digits ds -> json_frac (46 :: ds).

Inductive json_exp : str -> Prop :=
| json_exp_none : json_exp []
| json_exp_some e sign ds :
    e = 101 \/ e = 69 ->
    sign = [] \/ sign = [43] \/ sign = [45] ->
    json_digits ds ->
    json_exp (e :: sign ++ ds).

Inductive json_number : str -> Prop :=
| json_number_intro (minus : bool) i f e :
    json_int i -> json_frac f -> json_exp e ->
    json_number ((if minus then [45] else []) ++ i ++ f ++ e).

Inductive json_chars : str -> Prop :=
| json_chars_nil : json_chars []
| json_chars_plain c s :
    is_unescaped c = true -> json_chars s -> json_chars (c :: s)
| json_chars_escape c s :
    is_escape_letter c = true -> json_chars s -> json_chars (92 :: c :: s)
| json_chars_unicode h1 h2 h3 h4 s :
    is_hex h1 = true -> is_hex h2 = true -> is_hex h3 = true -> is_hex h4 = true ->
    json_chars s -> json_chars (92 :: 117 :: h1 :: h2 :: h3 :: h4 :: s).

Inductive json_string : str -> Prop :=
| json_string_intro body : json_chars body -> json_string (34 :: body ++ [34]).

Inductive json_value : str -> Prop :=
| json_null : json_value (py "null")
| json_true : json_value (py "true")
| json_false : json_value (py "false")
| json_num s : json_number s -> json_value s
| json_str s : json_string s -> json_value s
| json_array_empty w : json_ws w -> json_value (91 :: w ++ [93])
| json_array els : json_elements els -> json_value (91 :: els ++ [93])
| json_object_empty w : json_ws w -> json_value (123 :: w ++ [125])
| json_object_members ms : json_members ms -> json_value (123 :: ms ++ [125])
with json_elements : str -> Prop :=
| json_elements_last w1 v w2 :
    json_ws w1 -> json_value v -> json_ws w2 ->
    json_elements (w1 ++ v ++ w2)
| json_elements_more w1 v w2 rest :
    json_ws w1 -> json_value v -> json_ws w2 -> json_elements rest ->
    json_elements (w1 ++ v ++ w2 ++ 44 :: rest)
with json_members : str -> Prop :=
| json_members_last w1 k w2 w3 v w4 :
    json_ws w1 -> json_string k -> json_ws w2 ->
    json_ws w3 -> json_value v -> json_ws w4 ->
    json_members (w1 ++ k ++ w2 ++ 58 :: w3 ++ v ++ w4)
| json_members_more w1 k w2 w3 v w4 rest :
    json_ws w1 -> json_string k -> json_ws w2 ->
    json_ws w3 -> json_value v -> json_ws w4 -> json_members rest ->
    json_members (w1 ++ k ++ w2 ++ 58 :: w3 ++ v ++ w4 ++ 44 :: rest).

(** A JSON text that is an object. *)
Inductive json_object : str -> Prop :=
| json_object_of_ws w : json_ws w -> json_object (123 :: w ++ [125])
| json_object_of_members ms : json_members ms -> json_object (123 :: ms ++ [125]).

(* --------------------------------------------------------------------- *)
(** ** Inputs [json.dumps] turns into JSON *)

(** A finite float whose digit string is well formed: decimal digits, no
    leading zero, zero itself being the digit 0 with the point after it. *)
Definition float_ok (f : pyfloat) : bool :=
  match f with
  | FFinite _ digits decpt =>
      forallb (fun d => d <? 10) digits &&
      match digits with
      | [] => false
      | [d] => negb (d =? 0) || (decpt =? 1)%Z
      | d :: _ => negb (d =? 0)
      end
  | _ => false
  end.

(** Values built from [None], booleans, integers, finite floats, strings,
    lists and dicts. *)
Fixpoint json_safe (v : pyval) : bool :=
  match v with
  | PNone | PBool _ | PInt _ | PStr _ => true
  | PFloat f => float_ok f
  | PList xs => forallb json_safe xs
  | PDict kvs => forallb (fun kv => json_safe kv.2) kvs
  | PObject _ => false
  end.

(** A valid [data] or [actor] argument: omitted, [None], or such a dict. *)
Definition valid_mapping (d : option pydict) : bool :=
  match d with
  | Some kvs => json_safe (PDict kvs)
  | None => true
  end.

(* --------------------------------------------------------------------- *)
(** ** UTC timestamps in ISO-8601 with the Z designator *)

Definition is_leap (y : N) : bool :=
  ((y mod 4 =? 0) && negb (y mod 100 =? 0)) || (y mod 400 =? 0).

Definition days_in_month (y m : N) : N :=
  if m =? 2 then (if is_leap y then 29 else 28)
  else if (m =? 4) || (m =? 6) || (m =? 9) || (m =? 11) then 30
  else 31.

(** The invariants of a [datetime] object. *)
Definition datetime_ok (d : datetime) : bool :=
  (1 <=? year d) && (year d <=? 9999)
  && (1 <=? month d) && (month d <=? 12)
  && (1 <=? day d) && (day d <=? days_in_month (year d) (month d))
  && (hour d <=? 23) && (minute d <=? 59) && (second d <=? 59)
  && (microsecond d <=? 999999).

(** Reads exactly [k] decimal digits and returns their value. *)
Fixpoint read_digits (k : nat) (s : str) (acc : N) : option (N * str) :=
  match k with
  | O => Some (acc, s)
  | S k' =>
      match s with
      | c :: s' => if is_digit c then read_digits k' s' (10 * acc + (c - 48)) else None
      | [] => None
      end
  end.

Definition expect (c : N) (s : str) : option str :=
  match s with
  | c' :: s' => if c' =? c then Some s' else None
  | [] => None
  end.

(** What is left of [s] after its leading decimal digits. *)
Fixpoint skip_digits (s : str) : str :=
  match s with
  | c :: s' => if is_digit c then skip_digits s' else s
  | [] => []
  end.

(** After the seconds: the letter Z, or a point, one or more digits and Z. *)
Definition fraction_then_z (s : str) : bool :=
  match s with
  | [90] => true
  | 46 :: d :: rest => is_digit d && str_eqb (skip_digits rest) [90]
  | _ => false
  end.

(** [YYYY-MM-DDThh:mm:ss[.f+]Z] with every field in range. *)
Definition iso8601_utc_z (s : str) : bool :=
  match
    '(y, s) ← read_digits 4 s 0;
    s ← expect 45 s;
    '(mo, s) ← read_digits 2 s 0;
    s ← expect 45 s;
    '(d, s) ← read_digits 2 s 0;
    s ← expect 84 s;
    '(h, s) ← read_digits 2 s 0;
    s ← expect 58 s;
    '(mi, s) ← read_digits 2 s 0;
    s ← expect 58 s;
    '(se, s) ← read_digits 2 s 0;
    Some ((1 <=? mo) && (mo <=? 12) && (1 <=? d) && (d <=? days_in_month y mo)
          && (h <=? 23) && (mi <=? 59) && (se <=? 59) && fraction_then_z s)
  with
  | Some b => b
  | None => false
  end.

(* --------------------------------------------------------------------- *)
(** ** Calls and transports *)

(** The call returns an envelope whose level is [name]. *)
Definition returns_level (m : M (pydict * option Future)) (w : World) (name : str)
  : Prop :=
  exists ev fut w',
    m w = (Ok (ev, fut), w') /\ dict_get (py "level") ev = Some (PStr name).

(** Whatever the transport raises is an [Exception]. *)
Definition raises_only_Exception (pub : PublisherClient) : Prop :=
  forall topic payload e, publish pub topic payload = Raise e -> is_Exception e = true.

(** The keys of an envelope, in order. *)
Definition envelope_keys : list str :=
  [ py "event_id"; py "correlation_id"; py "service"; py "event_type";
    py "level"; py "environment"; py "created_at"; py "actor"; py "data" ].

(* --------------------------------------------------------------------- *)
(** ** Auxiliary definitions of the proofs *)

(** The value a string of decimal digits denotes, read from the left. *)
Definition decimal_step (a c : N) : N := 10 * a + (c - 48).

(** The part of [isoformat] before the offset. *)
Definition iso_body (d : datetime) : str :=
  fmt_0d 4 (year d) ++ py "-" ++ fmt_0d 2 (month d) ++ py "-" ++ fmt_0d 2 (day d)
    ++ py "T" ++ fmt_0d 2 (hour d) ++ py ":" ++ fmt_0d 2 (minute d)
    ++ py ":" ++ fmt_0d 2 (second d)
    ++ (if microsecond d =? 0 then [] else py "." ++ fmt_0d 6 (microsecond d)).

(** All characters are ASCII. *)
Definition is_ascii (s : str) : Prop := Forall (fun c => c < 128) s.

(** One [key: value] item of a dict. *)
Definition member_item (item : str) : Prop :=
  exists k v, item = k ++ py ": " ++ v /\ json_string k /\ json_value v.

(** What [json.dumps] returns for a safe value. *)
Definition dumps_ok (v : pyval) : Prop :=
  exists s, json_dumps v = Ok s /\ json_value s /\ is_ascii s
            /\ match v with PDict _ => json_object s | _ => True end.

(** The envelope [_build_event] assembles once both dumps are known. *)
Definition envelope (self : EventLogger) (event_type level : str)
    (service correlation_id : option str) (w : World) (actor_json data_json : str)
  : pydict :=
  [ (py "event_id", PStr (uuid_str (uuid4_int (urandom w (urandom_reads w)))));
    (py "correlation_id",
     PStr (if truthy_str correlation_id then str_of correlation_id
           else uuid_str (uuid4_int (urandom w (S (urandom_reads w))))));
    (py "service", val_of (or_str service (service_name self)));
    (py "event_type", PStr event_type);
    (py "level", PStr level);
    (py "environment", val_of (environment self));
    (py "created_at",
     PStr (replace (py "+00:00") (py "Z") (isoformat (clock w (clock_reads w)))));
    (py "actor", PStr actor_json);
    (py "data", PStr data_json) ].

(** The five settings after parameters and environment are merged. *)
Record resolved_config := {
  r_project : option str;
  r_topic : option str;
  r_environment : option str;
  r_service : option str;
  r_credentials : option str
}.

Definition resolve (p_project p_topic p_environment p_service
                      p_credentials : option str) (w : World)
  : resolved_config :=
  {| r_project := or_str p_project (environ w !! py "LOG_GCP_PROJECT");
     r_topic :=
       or_str p_topic (Some (default (py "events") (environ w !! py "LOG_TOPIC")));
     r_environment := or_str p_environment (environ w !! py "LOG_ENVIRONMENT");
     r_service := or_str p_service (environ w !! py "LOG_SERVICE_NAME");
     r_credentials :=
       or_str p_credentials (environ w !! py "LOG_GCP_CREDENTIALS") |}.

Definition missing_of (c : resolved_config) : list str :=
  missing_config
    (required_config (r_project c) (r_topic c) (r_environment c) (r_service c)
                     (r_credentials c)).

Definition logger_of (c : resolved_config) (pub : PublisherClient) : EventLogger :=
  {| project_id := r_project c;
     topic_name := r_topic c;
     environment := r_environment c;
     service_name := r_service c;
     credentials_path := r_credentials c;
     publisher := pub;
     topic_path := topic_path_of (r_project c) (r_topic c) |}.

(** The message raised when nothing at all is configured. *)
Definition four_missing_message : str :=
  py "Missing required config for EventLogger: LOG_GCP_PROJECT / project_id, LOG_ENVIRONMENT / environment, LOG_SERVICE_NAME / service_name, LOG_GCP_CREDENTIALS / credentials_path".

(* --------------------------------------------------------------------- *)
(** ** Where a JSON text ends *)

(** A character on which a JSON value can end: a digit, the last letter of
    a literal name, a quotation mark or a closing bracket. *)
Definition value_end (c : N) : bool :=
  is_digit c || (c =? 108) || (c =? 101) || (c =? 34) || (c =? 93) || (c =? 125).

(** The last character of a text that is not white space. *)
Fixpoint last_nonws (s : str) : option N :=
  match s with
  | [] => None
  | c :: rest =>
      match last_nonws rest with
      | Some d => Some d
      | None => if is_ws c then None else Some c
      end
  end.

(** A [data] argument holding a not-a-number, and the text [json.dumps]
    makes of it: an opening brace, the key x in quotation marks, a colon and
    the token NaN. *)
Definition nan_data : pydict := [(py "x", PFloat FNaN)].

Definition nan_data_json : str := 123 :: 34 :: 120 :: 34 :: py ": NaN}".

(* --------------------------------------------------------------------- *)
(** ** Definitions of the further properties *)

Definition env_without_service : gmap str str :=
  <[py "LOG_GCP_PROJECT" := py "bookings-prod"]>
  (<[py "LOG_ENVIRONMENT" := py "production"]>
  (<[py "LOG_GCP_CREDENTIALS" := py "/etc/sa.json"]> ∅)).

Definition env_with_empty_topic : gmap str str :=
  <[py "LOG_TOPIC" := []]> full_env.

Definition unreadable_credentials_world : World :=
  {| environ := full_env;
     urandom := fun _ => 0;
     urandom_reads := 0;
     clock := fun _ => sample_clock;
     clock_reads := 0;
     service_account_file := fun _ =>
       Raise (OtherException (py "FileNotFoundError") (py "/etc/sa.json"));
     publisher_client := fun _ => Ok ok_transport;
     log_records := [];
     _event_logger := None |}.

(** The [k] low digits of [n] in base [b], most significant first. *)
Fixpoint fixed_digits (b : N) (k : nat) (n : N) : str :=
  match k with
  | O => []
  | S k' => fixed_digits b k' (n / b) ++ [digit_char (n mod b)]
  end.

Definition is_lower_hex (c : N) : bool :=
  is_digit c || ((97 <=? c) && (c <=? 102)).

(** The canonical text of a version 4, RFC 4122 variant UUID: five groups
    of 8, 4, 4, 4 and 12 lower-case hexadecimal digits separated by hyphens,
    the third group starting with 4 and the fourth with 8, 9, a or b. *)
Definition is_uuid4 (s : str) : bool :=
  match s with
  | [a0; a1; a2; a3; a4; a5; a6; a7; h1; b0; b1; b2; b3; h2;
     c0; c1; c2; c3; h3; d0; d1; d2; d3; h4;
     e0; e1; e2; e3; e4; e5; e6; e7; e8; e9; e10; e11] =>
      forallb is_lower_hex
        [a0; a1; a2; a3; a4; a5; a6; a7; b0; b1; b2; b3; c0; c1; c2; c3;
         d0; d1; d2; d3; e0; e1; e2; e3; e4; e5; e6; e7; e8; e9; e10; e11]
      && forallb (N.eqb 45) [h1; h2; h3; h4]
      && (c0 =? 52)
      && ((d0 =? 56) || (d0 =? 57) || (d0 =? 97) || (d0 =? 98))
  | _ => false
  end.

Definition interrupted_transport : PublisherClient :=
  {| publish := fun _ _ => Raise (BaseExceptionOnly (py "KeyboardInterrupt") []) |}.

(** Reads back a timestamp of the form [created_at] has: date, T, time,
    an optional point with six digits of microseconds, and Z. *)
Definition parse_utc_timestamp (s : str) : option datetime :=
  '(y, s) ← read_digits 4 s 0;
  s ← expect 45 s;
  '(mo, s) ← read_digits 2 s 0;
  s ← expect 45 s;
  '(d, s) ← read_digits 2 s 0;
  s ← expect 84 s;
  '(h, s) ← read_digits 2 s 0;
  s ← expect 58 s;
  '(mi, s) ← read_digits 2 s 0;
  s ← expect 58 s;
  '(se, s) ← read_digits 2 s 0;
  match s with
  | [90] =>
      Some {| year := y; month := mo; day := d; hour := h; minute := mi;
              second := se; microsecond := 0 |}
  | 46 :: frac =>
      '(us, s) ← read_digits 6 frac 0;
      match s with
      | [90] =>
          Some {| year := y; month := mo; day := d; hour := h; minute := mi;
                  second := se; microsecond := us |}
      | _ => None
      end
  | _ => None
  end.

Definition whole_second_world : World :=
  {| environ := ∅;
     urandom := fun _ => 0;
     urandom_reads := 0;
     clock := fun _ =>
       {| year := 2025; month := 12; day := 31; hour := 0; minute := 0;
          second := 7; microsecond := 0 |};
     clock_reads := 0;
     service_account_file := fun _ => Ok (MkCredentials []);
     publisher_client := fun _ => Ok ok_transport;
     log_records := [];
     _event_logger := None |}.

(** The value of a lower-case hexadecimal digit. *)
Definition hex_value (c : N) : N := if c <? 58 then c - 48 else c - 87.

Definition hex_step (a c : N) : N := 16 * a + hex_value c.

(** The 32 hexadecimal digits of a UUID text, hyphens removed. *)
Definition uuid_hex (s : str) : str :=
  take 8 s ++ take 4 (drop 9 s) ++ take 4 (drop 14 s) ++ take 4 (drop 19 s)
    ++ drop 24 s.

(** The integer a canonical UUID text denotes: its 32 digits read in base 16. *)
Definition uuid_int_of_str (s : str) : N := fold_left hex_step (uuid_hex s) 0.

(* ===================================================================== *)
(** * Proofs *)
(* ===================================================================== *)

(** [lia] with division and remainder by constants. *)
Ltac Zify.zify_post_hook ::= Z.to_euclidean_division_equations.

(** Boolean comparisons on [N] as propositions, for [lia]. *)
Ltac nbool :=
  repeat first
    [ rewrite andb_true_iff | rewrite orb_true_iff | rewrite negb_true_iff
    | rewrite andb_false_iff | rewrite orb_false_iff | rewrite negb_false_iff
    | rewrite N.leb_le | rewrite N.ltb_lt | rewrite N.eqb_eq
    | rewrite N.leb_gt | rewrite N.ltb_ge | rewrite N.eqb_neq ].

(* ===================================================================== *)
(** * Integer formatting *)
(* ===================================================================== *)

Section ToBase.
Variable b : N.
Hypothesis Hb : 2 <= b.

Lemma to_base_fuel_acc fuel n acc :
  to_base_fuel fuel b n acc = to_base_fuel fuel b n [] ++ acc.
Proof.
  revert n acc. induction fuel as [|fuel IH]; intros n acc; simpl; [done|].
  destruct (n / b =? 0); [done|].
  rewrite IH, (IH _ [_]). by rewrite <- app_assoc.
Qed.

Lemma to_base_fuel_Forall (P : N -> Prop) fuel n acc :
  (forall d, d < b -> P (digit_char d)) ->
  Forall P acc -> Forall P (to_base_fuel fuel b n acc).
Proof.
  intros HP. revert n acc.
  induction fuel as [|fuel IH]; intros n acc Hacc; simpl; [done|].
  assert (P (digit_char (n mod b))) by (apply HP, N.mod_lt; lia).
  destruct (n / b =? 0); [by constructor|]. apply IH. by constructor.
Qed.

Lemma pow_succ_nat k : b ^ N.of_nat (S k) = b * b ^ N.of_nat k.
Proof. rewrite Nat2N.inj_succ. apply N.pow_succ_r'. Qed.

Lemma to_base_fuel_length fuel n acc k :
  n < b ^ N.of_nat (S k) ->
  (length (to_base_fuel fuel b n acc) <= S k + length acc)%nat.
Proof.
  revert n acc k.
  induction fuel as [|fuel IH]; intros n acc k Hn; simpl; [lia|].
  destruct (n / b =? 0) eqn:Hq; [simpl; lia|].
  apply N.eqb_neq in Hq.
  destruct k as [|k].
  - exfalso. apply Hq, N.div_small. by rewrite pow_succ_nat, N.mul_1_r in Hn.
  - etrans; [apply (IH _ _ k)|simpl; lia].
    apply N.Div0.div_lt_upper_bound. by rewrite <- pow_succ_nat.
Qed.

Lemma to_base_fuel_nonempty fuel n acc :
  (1 <= length (to_base_fuel (S fuel) b n acc))%nat.
Proof.
  simpl. destruct (n / b =? 0); [simpl; lia|].
  rewrite to_base_fuel_acc, length_app. simpl. lia.
Qed.

(** With enough fuel the first digit of a positive number is not zero. *)
Lemma to_base_fuel_head fuel n acc :
  n <> 0 -> n < b ^ N.of_nat fuel ->
  exists d rest, 0 < d < b /\ to_base_fuel fuel b n acc = digit_char d :: rest.
Proof.
  revert n acc. induction fuel as [|fuel IH]; intros n acc Hn Hlt.
  - simpl in Hlt. lia.
  - simpl. destruct (n / b =? 0) eqn:Hq.
    + apply N.eqb_eq in Hq. exists (n mod b), acc. split; [|done].
      assert (n < b) by (apply N.div_small_iff in Hq; lia).
      rewrite N.mod_small by done. lia.
    + apply N.eqb_neq in Hq. apply IH; [done|].
      apply N.Div0.div_lt_upper_bound. by rewrite <- pow_succ_nat.
Qed.

Lemma fuel_enough n : n < b ^ N.of_nat (S (N.to_nat (N.log2 n))).
Proof.
  destruct (N.eq_dec n 0) as [->|Hn].
  - simpl. rewrite N.pow_1_r. lia.
  - rewrite Nat2N.inj_succ, N2Nat.id.
    apply N.lt_le_trans with (2 ^ N.succ (N.log2 n)).
    + apply N.log2_spec. lia.
    + apply N.pow_le_mono_l. lia.
Qed.

Lemma to_base_nonempty n : (1 <= length (to_base b n))%nat.
Proof. apply to_base_fuel_nonempty. Qed.

Lemma to_base_length n k :
  n < b ^ N.of_nat (S k) -> (length (to_base b n) <= S k)%nat.
Proof.
  intros Hn. unfold to_base.
  etrans; [by apply to_base_fuel_length|]. simpl. lia.
Qed.

Lemma to_base_head n :
  n <> 0 -> exists d rest, 0 < d < b /\ to_base b n = digit_char d :: rest.
Proof. intros Hn. apply to_base_fuel_head; [done|apply fuel_enough]. Qed.

Lemma to_base_Forall (P : N -> Prop) n :
  (forall d, d < b -> P (digit_char d)) -> Forall P (to_base b n).
Proof. intros HP. by apply to_base_fuel_Forall. Qed.
End ToBase.

Lemma to_base_zero b : to_base b 0 = [48].
Proof. unfold to_base. simpl. by destruct b. Qed.

Lemma digit_char_decimal d : d < 10 -> is_digit (digit_char d) = true.
Proof. intros H. unfold is_digit, digit_char. destruct (N.ltb_spec d 10); nbool; lia. Qed.

Lemma digit_char_hex d : d < 16 -> is_hex (digit_char d) = true.
Proof.
  intros H. unfold is_hex, is_digit, digit_char.
  destruct (N.ltb_spec d 10); nbool; lia.
Qed.

Lemma forallb_of_Forall {A} (f : A -> bool) (l : list A) :
  Forall (fun x => f x = true) l -> forallb f l = true.
Proof. induction 1 as [|x l Hx _ IH]; simpl; [done|]. by rewrite Hx, IH. Qed.

Lemma to_base_fuel_value fuel n :
  n < 10 ^ N.of_nat fuel ->
  fold_left decimal_step (to_base_fuel fuel 10 n []) 0 = n.
Proof.
  revert n. induction fuel as [|fuel IH]; intros n Hn.
  - simpl in Hn. simpl. lia.
  - cbn [to_base_fuel].
    assert (Hd : decimal_step 0 (digit_char (n mod 10)) = n mod 10).
    { unfold decimal_step, digit_char.
      pose proof (N.mod_lt n 10). destruct (N.ltb_spec (n mod 10) 10); lia. }
    destruct (n / 10 =? 0) eqn:Hq.
    + apply N.eqb_eq in Hq. simpl. rewrite Hd.
      apply N.mod_small. apply N.div_small_iff in Hq; lia.
    + rewrite to_base_fuel_acc, fold_left_app. simpl.
      rewrite IH.
      * unfold decimal_step, digit_char.
        pose proof (N.mod_lt n 10). pose proof (N.div_mod n 10).
        destruct (N.ltb_spec (n mod 10) 10); lia.
      * apply N.Div0.div_lt_upper_bound.
        by rewrite <- (pow_succ_nat 10).
Qed.

Lemma to_base_value n : fold_left decimal_step (to_base 10 n) 0 = n.
Proof. apply to_base_fuel_value, fuel_enough. lia. Qed.

Lemma to_base_digits n : forallb is_digit (to_base 10 n) = true.
Proof.
  apply forallb_of_Forall, to_base_Forall; [lia|].
  intros d Hd. by apply digit_char_decimal.
Qed.

Lemma to_base_hex n : forallb is_hex (to_base 16 n) = true.
Proof.
  apply forallb_of_Forall, to_base_Forall; [lia|].
  intros d Hd. by apply digit_char_hex.
Qed.

Lemma zfill_length width s :
  (length s <= width)%nat -> length (zfill width s) = width.
Proof. intros H. unfold zfill. rewrite length_app, length_replicate. lia. Qed.

Lemma zfill_forallb (P : N -> bool) width s :
  P 48 = true -> forallb P s = true -> forallb P (zfill width s) = true.
Proof.
  intros H0 Hs. unfold zfill. rewrite forallb_app, Hs, andb_true_r.
  induction (width - length s)%nat; simpl; [done|]. by rewrite H0.
Qed.

Lemma zfill_value width s :
  fold_left decimal_step (zfill width s) 0 = fold_left decimal_step s 0.
Proof.
  unfold zfill. rewrite fold_left_app. f_equal.
  induction (width - length s)%nat; simpl; [done|]. done.
Qed.

Lemma fmt_0d_length k n :
  n < 10 ^ N.of_nat (S k) -> length (fmt_0d (S k) n) = S k.
Proof. intros H. apply zfill_length, to_base_length; [lia|done]. Qed.

Lemma fmt_0d_digits k n : forallb is_digit (fmt_0d k n) = true.
Proof. apply zfill_forallb; [done|apply to_base_digits]. Qed.

Lemma fmt_0d_value k n : fold_left decimal_step (fmt_0d k n) 0 = n.
Proof. unfold fmt_0d. rewrite zfill_value. apply to_base_value. Qed.

Lemma fmt_0d_nonempty k n : fmt_0d k n <> [].
Proof.
  unfold fmt_0d, zfill. pose proof (to_base_nonempty 10 ltac:(lia) n).
  destruct (to_base 10 n); simpl in *; [lia|].
  by destruct (replicate _ _).
Qed.

(** Four hexadecimal digits for a 16-bit value. *)
Lemma fmt_0x_4 n :
  n < 0x10000 ->
  exists h1 h2 h3 h4,
    fmt_0x 4 n = [h1; h2; h3; h4]
    /\ is_hex h1 = true /\ is_hex h2 = true /\ is_hex h3 = true /\ is_hex h4 = true.
Proof.
  intros Hn.
  assert (Hlen : length (fmt_0x 4 n) = 4%nat).
  { apply zfill_length, (to_base_length 16); [lia|]. by vm_compute (16 ^ _). }
  assert (Hhex : forallb is_hex (fmt_0x 4 n) = true).
  { apply zfill_forallb; [done|apply to_base_hex]. }
  destruct (fmt_0x 4 n) as [|h1 [|h2 [|h3 [|h4 [|? ?]]]]]; try done.
  simpl in Hhex. rewrite !andb_true_iff in Hhex.
  destruct Hhex as (? & ? & ? & ? & _). by exists h1, h2, h3, h4.
Qed.

(* ===================================================================== *)
(** * String operations *)
(* ===================================================================== *)

Lemma str_eqb_refl s : str_eqb s s = true.
Proof. induction s as [|c s IH]; simpl; [done|]. by rewrite N.eqb_refl. Qed.

Lemma str_eqb_eq a b : str_eqb a b = true -> a = b.
Proof.
  revert b. induction a as [|x a IH]; intros [|y b] H; simpl in H; try done.
  apply andb_true_iff in H as [Hx Hab]. apply N.eqb_eq in Hx. f_equal; auto.
Qed.

Lemma endswith_app s suf : endswith (s ++ suf) suf = true.
Proof.
  unfold endswith. rewrite length_app.
  replace (length s + length suf - length suf)%nat with (length s) by lia.
  rewrite drop_app_length, str_eqb_refl, andb_true_r.
  apply Nat.leb_le. lia.
Qed.

(** A string and a suffix of it end in the same character. *)
Lemma endswith_last s suf x y : endswith (s ++ [x]) (suf ++ [y]) = true -> x = y.
Proof.
  unfold endswith. rewrite !length_app. simpl.
  intros H. apply andb_true_iff in H as [Hlen H].
  apply Nat.leb_le in Hlen. apply str_eqb_eq in H.
  rewrite drop_app_le in H by lia.
  by apply app_inj_tail in H as [_ ?].
Qed.

(** Replacing the UTC offset: nothing before it contains a plus sign. *)
Lemma replace_utc_offset s :
  Forall (fun c => c <> 43) s ->
  replace (py "+00:00") (py "Z") (s ++ py "+00:00") = s ++ py "Z".
Proof.
  intros Hs. change (replace (py "+00:00") (py "Z") (s ++ py "+00:00"))
    with (replace_from (py "+00:00") (py "Z") 0 (s ++ py "+00:00")).
  induction Hs as [|c s Hc _ IH]; [by vm_compute|].
  change ((c :: s) ++ py "+00:00") with (c :: (s ++ py "+00:00")).
  cbn [replace_from]. 
  replace (startswith (c :: s ++ py "+00:00") (py "+00:00")) with false.
  - by rewrite IH.
  - change (py "+00:00") with (43 :: py "00:00") at 2. cbn [startswith].
    apply N.eqb_neq in Hc. by rewrite Hc.
Qed.

(* ===================================================================== *)
(** * Timestamps *)
(* ===================================================================== *)

Lemma read_digits_app ds rest acc :
  forallb is_digit ds = true ->
  read_digits (length ds) (ds ++ rest) acc = Some (fold_left decimal_step ds acc, rest).
Proof.
  revert acc. induction ds as [|c ds IH]; intros acc H; simpl in *; [done|].
  apply andb_true_iff in H as [-> H]. by rewrite IH.
Qed.

Lemma read_fmt_0d k n rest :
  n < 10 ^ N.of_nat (S k) ->
  read_digits (S k) (fmt_0d (S k) n ++ rest) 0 = Some (n, rest).
Proof.
  intros H. rewrite <- (fmt_0d_length k n H) at 1.
  rewrite read_digits_app by apply fmt_0d_digits. by rewrite fmt_0d_value.
Qed.

Lemma expect_head c s : expect c ([c] ++ s) = Some s.
Proof. simpl. by rewrite N.eqb_refl. Qed.

Lemma skip_digits_z ds :
  forallb is_digit ds = true -> skip_digits (ds ++ [90]) = [90].
Proof.
  induction ds as [|c ds IH]; intros H; simpl in *; [done|].
  apply andb_true_iff in H as [-> H]. auto.
Qed.

Lemma digit_not_plus c : is_digit c = true -> c <> 43.
Proof. unfold is_digit. nbool. lia. Qed.

Lemma fmt_0d_no_plus k n : Forall (fun c => c <> 43) (fmt_0d k n).
Proof.
  pose proof (fmt_0d_digits k n) as H.
  induction (fmt_0d k n) as [|c s IH]; [constructor|].
  simpl in H. apply andb_true_iff in H as [Hc H].
  constructor; [by apply digit_not_plus|auto].
Qed.

Lemma isoformat_body d : isoformat d = iso_body d ++ py "+00:00".
Proof.
  unfold isoformat, iso_body.
  change (format_offset utc_offset) with (py "+00:00").
  by rewrite <- !app_assoc.
Qed.

Lemma iso_body_no_plus d : Forall (fun c => c <> 43) (iso_body d).
Proof.
  unfold iso_body.
  repeat first
    [ apply fmt_0d_no_plus
    | apply Forall_app; split
    | by vm_compute; repeat constructor ].
  destruct (microsecond d =? 0); [constructor|].
  apply Forall_app; split; [by repeat constructor|apply fmt_0d_no_plus].
Qed.

(** [created_at] as [_build_event] computes it. *)
Lemma created_at_eq d :
  replace (py "+00:00") (py "Z") (isoformat d) = iso_body d ++ py "Z".
Proof. rewrite isoformat_body. apply replace_utc_offset, iso_body_no_plus. Qed.

Lemma iso_body_accepted d :
  datetime_ok d = true -> iso8601_utc_z (iso_body d ++ py "Z") = true.
Proof.
  unfold datetime_ok. destruct d as [Y Mo D h mi se us]; cbn [year month day hour minute second microsecond].
  rewrite !andb_true_iff, !N.leb_le.
  intros (((((((((HY1 & HY2) & HM1) & HM2) & HD1) & HD2) & Hh) & Hmi) & Hse) & Hus).
  assert (HD3 : D <= 31).
  { etrans; [exact HD2|]. unfold days_in_month.
    repeat match goal with |- context [if ?b then _ else _] => destruct b end; lia. }
  assert (Hfrac : fraction_then_z
            ((if us =? 0 then [] else [46] ++ fmt_0d 6 us) ++ [90]) = true).
  { destruct (us =? 0); [done|].
    pose proof (fmt_0d_digits 6 us) as Hd.
    pose proof (fmt_0d_nonempty 6 us) as Hne.
    destruct (fmt_0d 6 us) as [|c ds]; [done|].
    simpl in Hd. apply andb_true_iff in Hd as [Hc Hd].
    cbn [app fraction_then_z]. by rewrite Hc, skip_digits_z, str_eqb_refl. }
  unfold iso8601_utc_z, iso_body.
  cbn [year month day hour minute second microsecond].
  change (py "-") with [45]; change (py "T") with [84];
    change (py ":") with [58]; change (py ".") with [46];
    change (py "Z") with [90].
  rewrite <- !app_assoc.
  rewrite (read_fmt_0d 3) by (vm_compute (10 ^ _); lia).
  cbn [mbind option_bind]. rewrite expect_head.
  do 4 (cbn [mbind option_bind];
        rewrite (read_fmt_0d 1) by (vm_compute (10 ^ _); lia);
        cbn [mbind option_bind]; rewrite expect_head).
  cbn [mbind option_bind].
  rewrite (read_fmt_0d 1) by (vm_compute (10 ^ _); lia).
  cbn [mbind option_bind]. rewrite Hfrac.
  nbool. lia.
Qed.

(** A timestamp that ends in Z does not end in the numeric offset. *)
Lemma created_at_suffix d :
  endswith (iso_body d ++ py "Z") (py "Z") = true
  /\ endswith (iso_body d ++ py "Z") (py "+00:00") = false.
Proof.
  split; [apply endswith_app|].
  destruct (endswith _ (py "+00:00")) eqn:H; [|done].
  change (py "+00:00") with (py "+00:0" ++ [48]) in H.
  change (py "Z") with [90] in H.
  by apply endswith_last in H.
Qed.

(* ===================================================================== *)
(** * JSON: strings *)
(* ===================================================================== *)

Lemma is_ascii_app a b : is_ascii a -> is_ascii b -> is_ascii (a ++ b).
Proof. intros. by apply Forall_app. Qed.

Lemma is_ascii_literal s : forallb (fun c => c <? 128) s = true -> is_ascii s.
Proof.
  induction s as [|c s IH]; simpl; intros H; [constructor|].
  apply andb_true_iff in H as [Hc H]. apply N.ltb_lt in Hc.
  constructor; [done|by apply IH].
Qed.

Lemma is_hex_ascii h : is_hex h = true -> h < 128.
Proof. unfold is_hex, is_digit. nbool. lia. Qed.

Lemma is_digit_ascii c : is_digit c = true -> c < 128.
Proof. unfold is_digit. nbool. lia. Qed.

Lemma digits_ascii s : forallb is_digit s = true -> is_ascii s.
Proof.
  induction s as [|c s IH]; simpl; intros H; [constructor|].
  apply andb_true_iff in H as [Hc H].
  constructor; [by apply is_digit_ascii|by apply IH].
Qed.

Lemma surrogate_bound hi x : hi < 0x10000 -> N.lor hi (N.land x 0x3ff) < 0x10000.
Proof.
  intros Hhi.
  destruct (N.eq_dec (N.lor hi (N.land x 0x3ff)) 0) as [->|Hnz]; [lia|].
  change 0x10000 with (2 ^ 16). apply N.log2_lt_pow2; [lia|].
  rewrite N.log2_lor.
  assert (N.log2 hi < 16).
  { destruct (N.eq_dec hi 0) as [->|?]; [done|].
    apply N.log2_lt_pow2; [lia|done]. }
  assert (N.log2 (N.land x 0x3ff) <= N.log2 0x3ff)
    by apply N.log2_le_mono, N.land_le_r.
  change (N.log2 0x3ff) with 9 in *. lia.
Qed.

(** One escaped character, in front of a well-formed rest. *)
Lemma replace_match_chars c rest :
  json_chars rest -> json_chars (replace_match c ++ rest).
Proof.
  intros Hrest. unfold replace_match, escape_dct.
  repeat match goal with
         | |- context [if ?x =? ?y then _ else _] => destruct (x =? y)
         end;
    try (by apply json_chars_escape).
  destruct (N.ltb_spec c 0x10000) as [Hc|Hc].
  - destruct (fmt_0x_4 c Hc) as (h1 & h2 & h3 & h4 & -> & ? & ? & ? & ?).
    by apply json_chars_unicode.
  - destruct (fmt_0x_4 (N.lor 0xd800 (N.land (N.shiftr (c - 0x10000) 10) 0x3ff)))
      as (h1 & h2 & h3 & h4 & -> & ? & ? & ? & ?); [by apply surrogate_bound|].
    destruct (fmt_0x_4 (N.lor 0xdc00 (N.land (c - 0x10000) 0x3ff)))
      as (k1 & k2 & k3 & k4 & -> & ? & ? & ? & ?); [by apply surrogate_bound|].
    apply json_chars_unicode; try done. by apply json_chars_unicode.
Qed.

Lemma replace_match_ascii c : is_ascii (replace_match c).
Proof.
  unfold replace_match, escape_dct.
  repeat match goal with
         | |- context [if ?x =? ?y then _ else _] => destruct (x =? y)
         end;
    try (by apply is_ascii_literal).
  destruct (N.ltb_spec c 0x10000) as [Hc|Hc].
  - destruct (fmt_0x_4 c Hc) as (h1 & h2 & h3 & h4 & -> & ? & ? & ? & ?).
    repeat constructor; auto using is_hex_ascii.
  - destruct (fmt_0x_4 (N.lor 0xd800 (N.land (N.shiftr (c - 0x10000) 10) 0x3ff)))
      as (h1 & h2 & h3 & h4 & -> & ? & ? & ? & ?); [by apply surrogate_bound|].
    destruct (fmt_0x_4 (N.lor 0xdc00 (N.land (c - 0x10000) 0x3ff)))
      as (k1 & k2 & k3 & k4 & -> & ? & ? & ? & ?); [by apply surrogate_bound|].
    repeat constructor; auto using is_hex_ascii.
Qed.

Lemma plain_char c :
  needs_escape c = false -> is_unescaped c = true /\ c < 128.
Proof. unfold needs_escape, is_unescaped. nbool. lia. Qed.

Lemma encode_chars s :
  json_chars (flat_map (fun c => if needs_escape c then replace_match c else [c]) s).
Proof.
  induction s as [|c s IH]; simpl; [constructor|].
  destruct (needs_escape c) eqn:Hc.
  - by apply replace_match_chars.
  - apply json_chars_plain; [by apply plain_char|done].
Qed.

Lemma encode_basestring_ascii_string s : json_string (encode_basestring_ascii s).
Proof. apply json_string_intro, encode_chars. Qed.

Lemma encode_basestring_ascii_ascii s : is_ascii (encode_basestring_ascii s).
Proof.
  unfold encode_basestring_ascii.
  apply is_ascii_app; [by repeat constructor|].
  apply is_ascii_app; [|by repeat constructor].
  induction s as [|c s IH]; simpl; [constructor|].
  apply is_ascii_app; [|done].
  destruct (needs_escape c) eqn:Hc; [apply replace_match_ascii|].
  repeat constructor. by apply plain_char.
Qed.

(* ===================================================================== *)
(** * JSON: numbers *)
(* ===================================================================== *)

Lemma json_number_parts (minus : bool) i f e s :
  s = (if minus then py "-" else []) ++ i ++ f ++ e ->
  json_int i -> json_frac f -> json_exp e -> json_number s.
Proof. intros -> ? ? ?. by apply (json_number_intro minus). Qed.

Lemma to_base_json_int n : json_int (to_base 10 n).
Proof.
  destruct (N.eq_dec n 0) as [->|Hn]; [rewrite to_base_zero; constructor|].
  pose proof (to_base_digits n) as Hd.
  destruct (to_base_head 10 ltac:(lia) n Hn) as (d & rest & Hrange & Heq).
  rewrite Heq in *. simpl in Hd. apply andb_true_iff in Hd as [_ Hd].
  apply json_int_pos; [|done].
  unfold is_digit19, digit_char. destruct (N.ltb_spec d 10); nbool; lia.
Qed.

Lemma int_repr_number n : json_number (int_repr n).
Proof.
  unfold int_repr. destruct (n <? 0)%Z.
  - apply (json_number_parts true (to_base 10 (Z.abs_N n)) [] []);
      [by rewrite !app_nil_r|apply to_base_json_int|constructor|constructor].
  - apply (json_number_parts false (to_base 10 (Z.to_N n)) [] []);
      [by rewrite !app_nil_r|apply to_base_json_int|constructor|constructor].
Qed.

Lemma int_repr_ascii n : is_ascii (int_repr n).
Proof.
  unfold int_repr. destruct (n <? 0)%Z.
  - apply is_ascii_app; [by repeat constructor|apply digits_ascii, to_base_digits].
  - apply digits_ascii, to_base_digits.
Qed.

(* --------------------------------------------------------------------- *)
(** ** Finite floats *)

Lemma forallb_take {A} (f : A -> bool) k l :
  forallb f l = true -> forallb f (take k l) = true.
Proof.
  revert k. induction l as [|x l IH]; intros [|k] H; simpl in *; try done.
  apply andb_true_iff in H as [-> H]. by apply IH.
Qed.

Lemma forallb_drop {A} (f : A -> bool) k l :
  forallb f l = true -> forallb f (drop k l) = true.
Proof.
  revert k. induction l as [|x l IH]; intros [|k] H; simpl in *; try done.
  apply andb_true_iff in H as [_ H]. by apply IH.
Qed.

Lemma forallb_replicate {A} (f : A -> bool) k x :
  f x = true -> forallb f (replicate k x) = true.
Proof. intros H. induction k; simpl; [done|]. by rewrite H. Qed.

Lemma digit_chars_digits digits :
  forallb (fun d => d <? 10) digits = true ->
  forallb is_digit (digit_char <$> digits) = true.
Proof.
  induction digits as [|d ds IH]; simpl; intros H; [done|].
  apply andb_true_iff in H as [Hd H]. apply N.ltb_lt in Hd.
  apply andb_true_iff. split; [by apply digit_char_decimal|by apply IH].
Qed.

Lemma single_digit_int c : is_digit c = true -> json_int [c].
Proof.
  intros Hc. destruct (N.eq_dec c 48) as [->|Hne]; [constructor|].
  apply json_int_pos; [|done]. unfold is_digit, is_digit19 in *.
  revert Hc. nbool. lia.
Qed.

Lemma nonzero_digit19 d : d < 10 -> d <> 0 -> is_digit19 (digit_char d) = true.
Proof.
  intros. unfold is_digit19, digit_char. destruct (N.ltb_spec d 10); nbool; lia.
Qed.

Lemma fmt_exponent_exp e : json_exp (py "e" ++ fmt_exponent e).
Proof.
  unfold fmt_exponent.
  assert (Hd : json_digits (fmt_0d 2 (Z.abs_N e)))
    by (split; [apply fmt_0d_nonempty|apply fmt_0d_digits]).
  destruct (e <? 0)%Z.
  - apply (json_exp_some 101 [45]); auto.
  - apply (json_exp_some 101 [43]); auto.
Qed.

Lemma float_repr_number neg digits decpt :
  float_ok (FFinite neg digits decpt) = true ->
  json_number (float_repr_finite neg digits decpt).
Proof.
  unfold float_ok. intros H. apply andb_true_iff in H as [Hall Hhead].
  pose proof (digit_chars_digits _ Hall) as Hds.
  destruct digits as [|d0 dtl]; [done|].
  assert (Hd0 : d0 < 10).
  { simpl in Hall. apply andb_true_iff in Hall as [Hall _]. by apply N.ltb_lt. }
  assert (Hmany : dtl <> [] -> d0 <> 0).
  { destruct dtl; [done|]. intros _. by apply N.eqb_neq, negb_true_iff. }
  assert (Hone : dtl = [] -> d0 <> 0 \/ decpt = 1%Z).
  { intros ->. apply orb_true_iff in Hhead as [Hh|Hh].
    - left. by apply N.eqb_neq, negb_true_iff.
    - right. by apply Z.eqb_eq. }
  clear Hhead Hall.
  unfold float_repr_finite. cbn [fmap list_fmap length] in *.
  set (c0 := digit_char d0) in *. set (cs := digit_char <$> dtl) in *.
  assert (Hlen : length cs = length dtl) by apply length_fmap.
  cbn [forallb] in Hds. apply andb_true_iff in Hds as [Hc0 Hcs].
  destruct ((decpt <=? -4)%Z || (16 <? decpt)%Z) eqn:Hexp.
  { (* exponent form *)
    cbn [take drop].
    eapply (json_number_parts neg [c0]);
      [reflexivity|by apply single_digit_int| |apply fmt_exponent_exp].
    destruct cs; [constructor|]. by apply json_frac_some. }
  apply orb_false_iff in Hexp as [He1 He2].
  apply Z.leb_gt in He1. apply Z.ltb_ge in He2.
  destruct (Z.leb_spec decpt 0) as [Hle|Hgt].
  { (* leading zero and point *)
    eapply (json_number_parts neg [48] _ []);
      [by rewrite app_nil_r|constructor| |constructor].
    change (py "0." ++ ?x) with ([48] ++ 46 :: x).
    apply json_frac_some. split; [by destruct (replicate _ _)|].
    rewrite forallb_app, forallb_replicate by done. cbn [forallb].
    by rewrite Hc0, Hcs. }
  destruct (Z.ltb_spec decpt (Z.of_nat (S (length dtl)))) as [Hin|Hout].
  { (* point inside the digits *)
    destruct (Z.to_nat decpt) as [|k] eqn:Hk; [lia|].
    cbn [take drop].
    eapply (json_number_parts neg (c0 :: take k cs) _ []);
      [by rewrite app_nil_r| | |constructor].
    - apply json_int_pos; [|by apply forallb_take].
      apply nonzero_digit19; [done|]. apply Hmany. intros ->. simpl in *. lia.
    - change (py "." ++ ?x) with (46 :: x). apply json_frac_some.
      split; [|by apply forallb_drop].
      intros Hnil. apply (f_equal length) in Hnil.
      rewrite length_drop in Hnil. simpl in Hnil. lia. }
  (* zeros up to the point *)
  eapply (json_number_parts neg (c0 :: cs ++ replicate _ 48) (py ".0") []);
    [cbn [app]; by rewrite app_nil_r, <- app_assoc| |by apply json_frac_some|constructor].
  destruct (N.eq_dec d0 0) as [->|Hnz].
  - destruct dtl as [|? ?]; [|by destruct Hmany].
    destruct (Hone eq_refl) as [?| ->]; [done|]. constructor.
  - apply json_int_pos; [by apply nonzero_digit19|].
    by rewrite forallb_app, Hcs, forallb_replicate.
Qed.

Lemma fmt_exponent_ascii e : is_ascii (fmt_exponent e).
Proof.
  unfold fmt_exponent. apply is_ascii_app.
  - destruct (_ <? _)%Z; by apply is_ascii_literal.
  - apply digits_ascii, fmt_0d_digits.
Qed.

Lemma float_repr_ascii neg digits decpt :
  float_ok (FFinite neg digits decpt) = true ->
  is_ascii (float_repr_finite neg digits decpt).
Proof.
  unfold float_ok. intros H. apply andb_true_iff in H as [Hall _].
  pose proof (digits_ascii _ (digit_chars_digits _ Hall)) as Hds.
  assert (Hsign : is_ascii (if neg then py "-" else []))
    by (destruct neg; by repeat constructor).
  assert (Hfrac : is_ascii match drop 1 (digit_char <$> digits) with
                           | [] => []
                           | frac => py "." ++ frac
                           end).
  { destruct (drop 1 (digit_char <$> digits)) eqn:Hd; [constructor|].
    rewrite <- Hd.
    apply is_ascii_app; [by apply is_ascii_literal|by apply Forall_drop]. }
  unfold float_repr_finite.
  destruct (_ || _); [|destruct (_ <=? _)%Z; [|destruct (_ <? _)%Z]];
    repeat first
      [ exact Hsign
      | exact Hds
      | exact Hfrac
      | apply fmt_exponent_ascii
      | by apply Forall_take
      | by apply Forall_drop
      | by apply Forall_replicate
      | by apply is_ascii_literal
      | apply is_ascii_app ].
Qed.

Lemma floatstr_number f : float_ok f = true -> json_number (floatstr f).
Proof. destruct f; try done. apply float_repr_number. Qed.

Lemma floatstr_ascii f : float_ok f = true -> is_ascii (floatstr f).
Proof. destruct f; try done. apply float_repr_ascii. Qed.

(* ===================================================================== *)
(** * JSON: values *)
(* ===================================================================== *)

(** Induction on values, with the hypothesis for every element of a list
    and every value of a dict. *)
Lemma pyval_ind (P : pyval -> Prop) :
  P PNone ->
  (forall b, P (PBool b)) ->
  (forall n, P (PInt n)) ->
  (forall f, P (PFloat f)) ->
  (forall s, P (PStr s)) ->
  (forall xs, Forall P xs -> P (PList xs)) ->
  (forall kvs, Forall (fun kv => P kv.2) kvs -> P (PDict kvs)) ->
  (forall t, P (PObject t)) ->
  forall v, P v.
Proof.
  intros HNone HBool HInt HFloat HStr HList HDict HObject.
  fix IH 1. intros [ | b | n | f | s | xs | kvs | t ].
  - exact HNone.
  - apply HBool.
  - apply HInt.
  - apply HFloat.
  - apply HStr.
  - apply HList. induction xs as [|x xs IHxs]; constructor; [apply IH|exact IHxs].
  - apply HDict. induction kvs as [|[k v] kvs IHkvs]; constructor;
      [apply IH|exact IHkvs].
  - apply HObject.
Qed.

Lemma mapM_result_Forall {A B} (f : A -> result B) (P : B -> Prop) l :
  Forall (fun x => exists y, f x = Ok y /\ P y) l ->
  exists ys, mapM_result f l = Ok ys /\ Forall P ys /\ length ys = length l.
Proof.
  induction 1 as [|x l (y & Hy & HP) _ (ys & Hys & HPs & Hlen)]; simpl.
  - by exists [].
  - exists (y :: ys). rewrite Hy. simpl. rewrite Hys. simpl.
    repeat split; [by constructor|by rewrite Hlen].
Qed.

Lemma Forall_forallb_mp {A} (f : A -> bool) (Q : A -> Prop) l :
  Forall (fun x => f x = true -> Q x) l -> forallb f l = true -> Forall Q l.
Proof.
  induction 1 as [|x l Hx _ IH]; simpl; intros H; [constructor|].
  apply andb_true_iff in H as [? ?]. constructor; auto.
Qed.

Lemma join_ascii sep parts :
  is_ascii sep -> Forall is_ascii parts -> is_ascii (join sep parts).
Proof.
  intros Hsep. induction 1 as [|p rest Hp Hrest IH]; simpl; [constructor|].
  destruct rest; [done|]. by repeat apply is_ascii_app.
Qed.

(** The items of a list, joined by a comma and a space, after any
    whitespace. *)
Lemma join_elements items w :
  items <> [] -> Forall json_value items -> json_ws w ->
  json_elements (w ++ join (py ", ") items).
Proof.
  intros Hne Hitems. revert w.
  induction Hitems as [|p rest Hp Hrest IH]; intros w Hw; [done|].
  cbn [join]. destruct rest as [|q rest].
  - rewrite <- (app_nil_r p). by apply json_elements_last.
  - change (w ++ p ++ py ", " ++ join (py ", ") (q :: rest))
      with (w ++ p ++ [] ++ 44 :: ([32] ++ join (py ", ") (q :: rest))).
    apply json_elements_more; try done. by apply IH.
Qed.

Lemma join_members items w :
  items <> [] -> Forall member_item items -> json_ws w ->
  json_members (w ++ join (py ", ") items).
Proof.
  intros Hne Hitems. revert w.
  induction Hitems as [|p rest (k & v & -> & Hk & Hv) Hrest IH]; intros w Hw;
    [done|].
  cbn [join]. destruct rest as [|q rest].
  - change (w ++ k ++ py ": " ++ v) with (w ++ k ++ [] ++ 58 :: [32] ++ v).
    rewrite <- (app_nil_r v). by apply json_members_last.
  - rewrite <- !app_assoc.
    change (w ++ k ++ py ": " ++ v ++ py ", " ++ join (py ", ") (q :: rest))
      with (w ++ k ++ [] ++ 58 :: [32] ++ v ++ []
              ++ 44 :: ([32] ++ join (py ", ") (q :: rest))).
    apply json_members_more; try done. by apply IH.
Qed.

Lemma json_object_value s : json_object s -> json_value s.
Proof. intros [w Hw|ms Hms]; [by apply json_object_empty|by apply json_object_members]. Qed.

Lemma json_dumps_safe v : json_safe v = true -> dumps_ok v.
Proof.
  unfold dumps_ok.
  induction v as [ | b | n | f | s | xs IH | kvs IH | t ] using pyval_ind;
    cbn [json_safe json_dumps]; intros Hsafe.
  - exists (py "null"). repeat split; [constructor|by apply is_ascii_literal].
  - destruct b; [exists (py "true")|exists (py "false")];
      (repeat split; [constructor|by apply is_ascii_literal]).
  - exists (int_repr n).
    repeat split; [apply json_num, int_repr_number|apply int_repr_ascii].
  - exists (floatstr f).
    repeat split; [by apply json_num, floatstr_number|by apply floatstr_ascii].
  - exists (encode_basestring_ascii s).
    repeat split;
      [apply json_str, encode_basestring_ascii_string
      |apply encode_basestring_ascii_ascii].
  - destruct xs as [|x xs'].
    { exists (py "[]"). repeat split; [|by apply is_ascii_literal].
      by apply (json_array_empty []). }
    set (xs := x :: xs') in *.
    destruct (mapM_result_Forall json_dumps
                (fun s => json_value s /\ is_ascii s) xs)
      as (items & -> & Hitems & Hlen).
    { eapply Forall_impl; [exact (Forall_forallb_mp _ _ _ IH Hsafe)|].
      intros v (s & ? & ? & ? & _). by exists s. }
    assert (items <> []) by (by destruct items).
    eexists. split; [reflexivity|]. repeat split.
    + apply json_array. rewrite <- (app_nil_l (join _ _)).
      apply join_elements; [done| |done].
      eapply Forall_impl; [exact Hitems|]. by intros ? [? _].
    + apply is_ascii_app; [by apply is_ascii_literal|].
      apply is_ascii_app; [|by apply is_ascii_literal].
      apply join_ascii; [by apply is_ascii_literal|].
      eapply Forall_impl; [exact Hitems|]. by intros ? [_ ?].
  - destruct kvs as [|kv kvs'].
    { exists (py "{}"). repeat split;
        [by apply (json_object_empty [])|by apply is_ascii_literal
        |by apply (json_object_of_ws [])]. }
    set (kvs := kv :: kvs') in *.
    destruct (mapM_result_Forall
                (fun kv : str * pyval =>
                   match kv with
                   | (k, v') =>
                       try! s := json_dumps v' in
                       Ok (encode_basestring_ascii k ++ py ": " ++ s)
                   end)
                (fun s => member_item s /\ is_ascii s) kvs)
      as (items & -> & Hitems & Hlen).
    { eapply Forall_impl; [exact (Forall_forallb_mp _ _ _ IH Hsafe)|].
      intros [k v] (s & Hs & ? & ? & _). cbn [snd] in Hs. rewrite Hs.
      eexists. split; [reflexivity|]. split.
      - exists (encode_basestring_ascii k), s.
        split; [done|]. split; [apply encode_basestring_ascii_string|done].
      - apply is_ascii_app; [apply encode_basestring_ascii_ascii|].
        apply is_ascii_app; [by apply is_ascii_literal|done]. }
    assert (items <> []) by (by destruct items).
    assert (Hms : json_members (join (py ", ") items)).
    { rewrite <- (app_nil_l (join _ _)).
      apply join_members; [done| |done].
      eapply Forall_impl; [exact Hitems|]. by intros ? [? _]. }
    eexists. split; [reflexivity|]. repeat split.
    + by apply json_object_members.
    + apply is_ascii_app; [by apply is_ascii_literal|].
      apply is_ascii_app; [|by apply is_ascii_literal].
      apply join_ascii; [by apply is_ascii_literal|].
      eapply Forall_impl; [exact Hitems|]. by intros ? [_ ?].
    + by apply json_object_of_members.
  - done.
Qed.

(** [json.dumps] of a dict of safe values returns a JSON object. *)
Lemma json_dumps_dict kvs :
  json_safe (PDict kvs) = true ->
  exists s, json_dumps (PDict kvs) = Ok s /\ json_object s /\ is_ascii s.
Proof.
  intros H. destruct (json_dumps_safe _ H) as (s & ? & ? & ? & ?). by exists s.
Qed.

(** ASCII text encodes to itself. *)
Lemma encode_utf8_ascii s : is_ascii s -> encode_utf8 s = Ok s.
Proof.
  unfold encode_utf8. intros Hs.
  assert (H : mapM_result utf8_char s = Ok ((fun c => [c]) <$> s)).
  { induction Hs as [|c s Hc _ IH]; [done|].
    cbn [mapM_result fmap list_fmap]. unfold utf8_char at 1.
    apply N.ltb_lt in Hc. rewrite Hc. cbn [result_bind]. by rewrite IH. }
  rewrite H. cbn [result_bind]. f_equal.
  clear. induction s as [|c s IH]; [done|]. cbn. by rewrite IH.
Qed.

(* ===================================================================== *)
(** * The envelope *)
(* ===================================================================== *)

(** Unfolds the effect monad down to the world. *)
Ltac run :=
  unfold uuid4, os_urandom16, datetime_now_utc, log_emit, set_event_logger,
    load_credentials, new_publisher_client, getenv, getenv_default,
    bind, ret, raise, lift in *;
  cbn beta iota zeta in *.

Lemma valid_mapping_safe d :
  valid_mapping d = true -> json_safe (PDict (or_empty_dict d)) = true.
Proof. destruct d as [[|kv d]|]; done. Qed.

Lemma _build_event_returns self event_type level data service correlation_id actor w aj dj :
  json_dumps (PDict (or_empty_dict actor)) = Ok aj ->
  json_dumps (PDict (or_empty_dict data)) = Ok dj ->
  exists w',
    _build_event self event_type level data service correlation_id actor w
    = (Ok (envelope self event_type level service correlation_id w aj dj), w')
    /\ _event_logger w' = _event_logger w
    /\ urandom_reads w'
       = ((if truthy_str correlation_id then 1 else 2) + urandom_reads w)%nat.
Proof.
  intros Ha Hd. unfold _build_event, envelope. run.
  destruct (truthy_str correlation_id); run; rewrite Ha, Hd; run;
    eexists; (split; [reflexivity|by split]).
Qed.

Lemma _build_event_inv self event_type level data service correlation_id actor w ev w' :
  _build_event self event_type level data service correlation_id actor w = (Ok ev, w') ->
  exists aj dj,
    json_dumps (PDict (or_empty_dict actor)) = Ok aj
    /\ json_dumps (PDict (or_empty_dict data)) = Ok dj
    /\ ev = envelope self event_type level service correlation_id w aj dj
    /\ _event_logger w' = _event_logger w.
Proof.
  intros H.
  destruct (json_dumps (PDict (or_empty_dict actor))) as [aj|e] eqn:Ha.
  - destruct (json_dumps (PDict (or_empty_dict data))) as [dj|e] eqn:Hd.
    + destruct (_build_event_returns self event_type level data service
                  correlation_id actor w aj dj Ha Hd) as (w1 & Heq & Hg & _).
      rewrite Heq in H. injection H as <- <-. by exists aj, dj.
    + exfalso. revert H. unfold _build_event. run.
      destruct (truthy_str correlation_id); run; rewrite Ha, Hd; by run.
  - exfalso. revert H. unfold _build_event. run.
    destruct (truthy_str correlation_id); run; rewrite Ha; by run.
Qed.

(** Whatever is raised while building leaves the module global alone. *)
Lemma _build_event_global self event_type level data service correlation_id actor w r w' :
  _build_event self event_type level data service correlation_id actor w = (r, w') ->
  _event_logger w' = _event_logger w.
Proof.
  unfold _build_event. run.
  destruct (truthy_str correlation_id); run;
    destruct (json_dumps (PDict (or_empty_dict actor))); run;
    try destruct (json_dumps (PDict (or_empty_dict data))); run;
    by intros [= <- <-].
Qed.

Lemma envelope_safe self event_type level service correlation_id w aj dj :
  json_safe (PDict (envelope self event_type level service correlation_id w aj dj)) = true.
Proof.
  unfold envelope. cbn [json_safe forallb snd].
  by destruct (or_str _ _), (environment self).
Qed.

(** The payload of an envelope is its JSON text, ASCII throughout. *)
Lemma envelope_payload self event_type level service correlation_id w aj dj :
  exists text,
    payload_of (envelope self event_type level service correlation_id w aj dj) = Ok text
    /\ json_object text.
Proof.
  destruct (json_dumps_dict _
              (envelope_safe self event_type level service correlation_id w aj dj))
    as (text & Htext & Hobj & Hascii).
  exists text. unfold payload_of. rewrite Htext. cbn [result_bind].
  by rewrite encode_utf8_ascii.
Qed.

(* ===================================================================== *)
(** * Publishing *)
(* ===================================================================== *)

(** [log_event] after the envelope is built: one INFO record, then the
    transport decides. *)
Lemma log_event_run self event_type level data service correlation_id actor w ev w1 p :
  _build_event self event_type level data service correlation_id actor w = (Ok ev, w1) ->
  payload_of ev = Ok p ->
  log_event self event_type level data service correlation_id actor w =
  let w2 := (log_emit INFO (py "[EventLogger] " ++ event_type ++ py " " ++ level
                              ++ py " - " ++ event_id_text ev) w1).2 in
  match publish (publisher self) (topic_path self) p with
  | Ok future =>
      (Ok (ev, Some future),
       (log_emit DEBUG (py "Published event " ++ event_id_text ev
                          ++ py " to " ++ topic_path self) w2).2)
  | Raise e =>
      if is_Exception e
      then (Ok (ev, None),
            (log_emit ERROR (py "Failed to publish event to Pub/Sub: "
                               ++ exn_text e) w2).2)
      else (Raise e, w2)
  end.
Proof.
  intros Hb Hp. unfold log_event. unfold bind at 1. rewrite Hb.
  unfold bind at 1, lift at 1. rewrite Hp. run.
  destruct (publish _ _ _) as [fut|e]; [done|]. by destruct (is_Exception e).
Qed.

(** When building raises, so does [log_event], before anything is sent. *)
Lemma log_event_build_raises self event_type level data service correlation_id actor w e w1 :
  _build_event self event_type level data service correlation_id actor w = (Raise e, w1) ->
  log_event self event_type level data service correlation_id actor w = (Raise e, w1).
Proof. intros Hb. unfold log_event. unfold bind at 1. by rewrite Hb. Qed.

Lemma log_emit_global lvl msg w : _event_logger (log_emit lvl msg w).2 = _event_logger w.
Proof. done. Qed.

(** Publishing never assigns the module global. *)
Lemma log_event_global self event_type level data service correlation_id actor w r w' :
  log_event self event_type level data service correlation_id actor w = (r, w') ->
  _event_logger w' = _event_logger w.
Proof.
  destruct (_build_event self event_type level data service correlation_id actor w)
    as [[ev|e] w1] eqn:Hb.
  - pose proof (_build_event_global _ _ _ _ _ _ _ _ _ _ Hb) as Hg.
    destruct (_build_event_inv _ _ _ _ _ _ _ _ _ _ Hb) as (aj & dj & _ & _ & -> & _).
    destruct (envelope_payload self event_type level service correlation_id w aj dj)
      as (p & Hp & _).
    rewrite (log_event_run _ _ _ _ _ _ _ _ _ _ _ Hb Hp). cbn zeta.
    destruct (publish _ _ _) as [fut|e]; [|destruct (is_Exception e)];
      intros [= <- <-]; by rewrite ?log_emit_global.
  - rewrite (log_event_build_raises _ _ _ _ _ _ _ _ _ _ Hb).
    intros [= <- <-]. by eapply _build_event_global.
Qed.

(* ===================================================================== *)
(** * Construction *)
(* ===================================================================== *)

(** [EventLogger.__init__], step by step. *)
Lemma EventLogger_init_run p_project p_topic p_environment p_service p_credentials w :
  EventLogger_init p_project p_topic p_environment p_service p_credentials w =
  let c := resolve p_project p_topic p_environment p_service p_credentials w in
  match missing_of c with
  | _ :: _ =>
      (Raise (ValueError (py "Missing required config for EventLogger: "
                            ++ join (py ", ") (missing_of c))), w)
  | [] =>
      match service_account_file w (r_credentials c) with
      | Raise e => (Raise e, w)
      | Ok creds =>
          match publisher_client w creds with
          | Raise e => (Raise e, w)
          | Ok pub =>
              (Ok (logger_of c pub),
               (log_emit DEBUG
                  (py "EventLogger initialized for service=" ++ str_of (r_service c)
                     ++ py ", environment=" ++ str_of (r_environment c)
                     ++ py ", topic=" ++ topic_path_of (r_project c) (r_topic c))
                  w).2)
          end
      end
  end.
Proof.
  unfold EventLogger_init, missing_of, resolve. run.
  cbn [r_project r_topic r_environment r_service r_credentials].
  destruct (missing_config _); [|done].
  destruct (service_account_file w _); [|done].
  by destruct (publisher_client w _).
Qed.

(** Nothing is missing exactly when all five settings are non-empty. *)
Lemma missing_of_nil c :
  missing_of c = [] <->
  truthy_str (r_project c) = true /\ truthy_str (r_topic c) = true
  /\ truthy_str (r_environment c) = true /\ truthy_str (r_service c) = true
  /\ truthy_str (r_credentials c) = true.
Proof.
  unfold missing_of, missing_config, required_config.
  destruct (truthy_str (r_project c)) eqn:H1, (truthy_str (r_topic c)) eqn:H2,
    (truthy_str (r_environment c)) eqn:H3, (truthy_str (r_service c)) eqn:H4,
    (truthy_str (r_credentials c)) eqn:H5;
    rewrite !filter_cons, filter_nil; cbn [snd];
    rewrite ?H1, ?H2, ?H3, ?H4, ?H5; cbn; (split; [intros [=]|intros (?&?&?&?&?)]; done) || done.
Qed.

Lemma EventLogger_init_global p_project p_topic p_environment p_service p_credentials w r w' :
  EventLogger_init p_project p_topic p_environment p_service p_credentials w = (r, w') ->
  _event_logger w' = _event_logger w.
Proof.
  rewrite EventLogger_init_run. cbn zeta.
  destruct (missing_of _); [|by intros [= <- <-]].
  destruct (service_account_file w _); [|by intros [= <- <-]].
  destruct (publisher_client w _); by intros [= <- <-].
Qed.

(** A constructed logger has all five settings non-empty. *)
Lemma EventLogger_init_configured p_project p_topic p_environment p_service p_credentials w self w' :
  EventLogger_init p_project p_topic p_environment p_service p_credentials w = (Ok self, w') ->
  truthy_str (project_id self) = true
  /\ truthy_str (topic_name self) = true
  /\ truthy_str (environment self) = true
  /\ truthy_str (service_name self) = true
  /\ truthy_str (credentials_path self) = true.
Proof.
  rewrite EventLogger_init_run. cbn zeta.
  destruct (missing_of _) eqn:Hm; [|done].
  apply missing_of_nil in Hm.
  destruct (service_account_file w _); [|done].
  destruct (publisher_client w _); [|done].
  by intros [= <- <-].
Qed.

(** [init_event_logger] raises exactly when the constructor does, and then
    nothing has been assigned. *)
Lemma init_event_logger_raises p_project p_topic p_environment p_service p_credentials w e w' :
  init_event_logger p_project p_topic p_environment p_service p_credentials w = (Raise e, w') ->
  EventLogger_init p_project p_topic p_environment p_service p_credentials w = (Raise e, w').
Proof.
  unfold init_event_logger. unfold bind at 1.
  destruct (EventLogger_init _ _ _ _ _ w) as [[lg|e'] w1]; [|done].
  destruct lg. by run.
Qed.

Lemma init_event_logger_installs p_project p_topic p_environment p_service p_credentials w self w1 :
  EventLogger_init p_project p_topic p_environment p_service p_credentials w = (Ok self, w1) ->
  exists w',
    init_event_logger p_project p_topic p_environment p_service p_credentials w = (Ok self, w')
    /\ _event_logger w' = Some self.
Proof.
  intros H. unfold init_event_logger. unfold bind at 1. rewrite H.
  destruct self. run. by eexists.
Qed.

Lemma dict_get_level self event_type level service correlation_id w aj dj :
  dict_get (py "level") (envelope self event_type level service correlation_id w aj dj)
  = Some (PStr level).
Proof. reflexivity. Qed.

Lemma log_event_returns self event_type level data service correlation_id actor w :
  valid_mapping data = true -> valid_mapping actor = true ->
  raises_only_Exception (publisher self) ->
  exists ev fut w1 w',
    _build_event self event_type level data service correlation_id actor w = (Ok ev, w1)
    /\ log_event self event_type level data service correlation_id actor w = (Ok (ev, fut), w').
Proof.
  intros Hd Ha Hpub.
  destruct (json_dumps_dict _ (valid_mapping_safe _ Ha)) as (aj & Haj & _).
  destruct (json_dumps_dict _ (valid_mapping_safe _ Hd)) as (dj & Hdj & _).
  destruct (_build_event_returns self event_type level data service correlation_id
              actor w aj dj Haj Hdj) as (w1 & Hb & _).
  destruct (envelope_payload self event_type level service correlation_id w aj dj)
    as (p & Hp & _).
  pose proof (log_event_run _ _ _ _ _ _ _ _ _ _ _ Hb Hp) as Hrun. cbn zeta in Hrun.
  destruct (publish (publisher self) (topic_path self) p) as [fut|e] eqn:Hpublish.
  - by eexists _, (Some fut), w1, _.
  - rewrite (Hpub _ _ _ Hpublish) in Hrun. by eexists _, None, w1, _.
Qed.

(* ===================================================================== *)
(** * Construction: missing settings and the default topic *)
(* ===================================================================== *)

(** C1, as stated, fails: with no parameter and no environment variable the
    constructor raises one error whose message names four settings; the
    topic name is not among them, because it has fallen back to its
    default. *)
Lemma init_all_missing_omits_topic :
  EventLogger_init None None None None None (fresh_world ∅ ok_transport)
  = (Raise (ValueError four_missing_message), fresh_world ∅ ok_transport)
  /\ contains (py "LOG_TOPIC / topic_name") four_missing_message = false
  /\ contains (py "topic") four_missing_message = false.
Proof. repeat split; by vm_compute. Qed.

(** C1, amended: constructing a logger with none of the five settings
    supplied (every parameter [None] or empty, none of the five environment
    variables set) raises a single [ValueError] whose message lists the four
    missing settings project id, environment, service name and credential
    path, in that order; the topic name is not reported because it defaults
    to [events].  Nothing else has happened by then. *)
Theorem init_reports_missing_settings
    (p_project p_topic p_environment p_service p_credentials : option str)
    (w : World) :
  truthy_str p_project = false -> truthy_str p_topic = false ->
  truthy_str p_environment = false -> truthy_str p_service = false ->
  truthy_str p_credentials = false ->
  environ w !! py "LOG_GCP_PROJECT" = None ->
  environ w !! py "LOG_TOPIC" = None ->
  environ w !! py "LOG_ENVIRONMENT" = None ->
  environ w !! py "LOG_SERVICE_NAME" = None ->
  environ w !! py "LOG_GCP_CREDENTIALS" = None ->
  EventLogger_init p_project p_topic p_environment p_service p_credentials w
  = (Raise (ValueError four_missing_message), w).
Proof.
  intros Hp Ht He Hs Hc Ep Et Ee Es Ec.
  rewrite EventLogger_init_run. unfold resolve, or_str.
  rewrite Hp, Ht, He, Hs, Hc, Ep, Et, Ee, Es, Ec. reflexivity.
Qed.

Lemma init_reports_missing_settings_witness :
  EventLogger_init (Some []) None None (Some []) None (fresh_world ∅ ok_transport)
  = (Raise (ValueError four_missing_message), fresh_world ∅ ok_transport).
Proof. apply init_reports_missing_settings; reflexivity. Defined.

(** C6: when project id, environment, service name and credential path
    are supplied (by parameter or environment variable, non-empty), the topic
    name is not, and the credentials load, construction succeeds and the
    logger uses the topic name [events]. *)
Theorem init_default_topic
    (p_project p_topic p_environment p_service p_credentials : option str)
    (w : World) (creds : Credentials) (pub : PublisherClient) :
  let c := resolve p_project p_topic p_environment p_service p_credentials w in
  truthy_str (r_project c) = true ->
  truthy_str (r_environment c) = true ->
  truthy_str (r_service c) = true ->
  truthy_str (r_credentials c) = true ->
  truthy_str p_topic = false ->
  environ w !! py "LOG_TOPIC" = None ->
  service_account_file w (r_credentials c) = Ok creds ->
  publisher_client w creds = Ok pub ->
  exists self w',
    EventLogger_init p_project p_topic p_environment p_service p_credentials w
    = (Ok self, w')
    /\ topic_name self = Some (py "events")
    /\ topic_path self
       = py "projects/" ++ str_of (project_id self) ++ py "/topics/events".
Proof.
  intros c Hp He Hs Hc Ht Et Hcreds Hpub.
  assert (Htopic : r_topic c = Some (py "events")).
  { unfold c, resolve, or_str. cbn [r_topic]. by rewrite Ht, Et. }
  assert (Hm : missing_of c = []).
  { apply missing_of_nil. by rewrite Htopic. }
  rewrite EventLogger_init_run. fold c. cbn zeta. rewrite Hm, Hcreds, Hpub.
  eexists _, _. split; [reflexivity|].
  cbn [logger_of topic_name topic_path project_id].
  by rewrite Htopic.
Qed.

Lemma init_default_topic_witness :
  exists self w',
    EventLogger_init None None None None None (fresh_world full_env ok_transport)
    = (Ok self, w')
    /\ topic_name self = Some (py "events")
    /\ topic_path self
       = py "projects/" ++ str_of (project_id self) ++ py "/topics/events".
Proof.
  refine (init_default_topic None None None None None
            (fresh_world full_env ok_transport)
            (MkCredentials (py "/etc/sa.json")) ok_transport _ _ _ _ _ _ _ _);
    vm_compute; reflexivity.
Defined.

(* ===================================================================== *)
(** * The singleton *)
(* ===================================================================== *)

(** C10: when [init_event_logger] raises, the module global is what it
    was: a logger installed before is still the one [get_event_logger]
    returns, and with none installed [get_event_logger] still returns the
    no-op logger. *)
Theorem init_failure_keeps_holder
    (p_project p_topic p_environment p_service p_credentials : option str)
    (w w' : World) (e : exn) :
  init_event_logger p_project p_topic p_environment p_service p_credentials w
  = (Raise e, w') ->
  _event_logger w' = _event_logger w
  /\ (forall lg, _event_logger w = Some lg -> (get_event_logger w').1 = Ok (Real lg))
  /\ (_event_logger w = None -> (get_event_logger w').1 = Ok NoOp).
Proof.
  intros H. apply init_event_logger_raises, EventLogger_init_global in H.
  split; [done|]. unfold get_event_logger. rewrite H.
  split; [by intros lg ->|by intros ->].
Qed.

Lemma init_failure_keeps_holder_witness :
  exists e w',
    init_event_logger None None None None None (fresh_world ∅ ok_transport)
    = (Raise e, w')
    /\ _event_logger w' = None
    /\ (get_event_logger w').1 = Ok NoOp.
Proof.
  exists (ValueError four_missing_message), (fresh_world ∅ ok_transport).
  assert (H : init_event_logger None None None None None (fresh_world ∅ ok_transport)
              = (Raise (ValueError four_missing_message), fresh_world ∅ ok_transport))
    by (by vm_compute).
  destruct (init_failure_keeps_holder _ _ _ _ _ _ _ _ H) as (Hg & _ & Hnoop).
  split; [exact H|]. split; [exact Hg|]. apply Hnoop. reflexivity.
Defined.

(** C8: with no logger installed, [get_event_logger] returns the no-op
    logger without raising, and every operation on it, under whatever name
    and with whatever arguments, returns the empty envelope and no future. *)
Theorem uninitialized_accessor_is_noop (w : World) :
  _event_logger w = None ->
  exists w',
    get_event_logger w = (Ok NoOp, w')
    /\ _event_logger w' = None
    /\ (forall name args kwargs, NoOpEventLogger_getattr name args kwargs = ([], None))
    /\ (forall op a w1, call NoOp op a w1 = (Ok ([], None), w1)).
Proof.
  intros H. unfold get_event_logger. rewrite H. run.
  eexists. split; [reflexivity|]. split; [exact H|]. by split.
Qed.

Lemma uninitialized_accessor_is_noop_witness :
  exists w',
    get_event_logger (fresh_world ∅ ok_transport) = (Ok NoOp, w')
    /\ _event_logger w' = None
    /\ (forall name args kwargs, NoOpEventLogger_getattr name args kwargs = ([], None))
    /\ (forall op a w1, call NoOp op a w1 = (Ok ([], None), w1)).
Proof. apply uninitialized_accessor_is_noop. reflexivity. Defined.

(* ===================================================================== *)
(** * The envelope: fields *)
(* ===================================================================== *)

(** C3, as stated, fails: a caller who supplies the empty string as
    correlation id gets a generated identifier in its place. *)
Lemma build_replaces_empty_correlation_id :
  built_field (py "correlation_id")
    (_build_event (sample_logger ok_transport) (py "signup") (py "info")
       None None (Some []) None (fresh_world ∅ ok_transport))
  = Some (PStr (py "01234567-89ab-4def-8123-456789abcdf0"))
  /\ Some (PStr (py "01234567-89ab-4def-8123-456789abcdf0")) <> Some (PStr []).
Proof. split; [by vm_compute|done]. Qed.

(** C3, amended: for every build call in which the caller supplies a
    non-empty correlation id, the envelope produced carries exactly that
    value, and only the event id has been generated; with valid [data] and
    [actor] an envelope is produced. *)
Theorem build_keeps_nonempty_correlation_id
    (self : EventLogger) (event_type level : str) (data actor : option pydict)
    (service : option str) (cid : str) (w : World) :
  cid <> [] ->
  (forall ev w',
     _build_event self event_type level data service (Some cid) actor w = (Ok ev, w') ->
     dict_get (py "correlation_id") ev = Some (PStr cid))
  /\ (valid_mapping data = true -> valid_mapping actor = true ->
      exists ev w',
        _build_event self event_type level data service (Some cid) actor w = (Ok ev, w')
        /\ urandom_reads w' = S (urandom_reads w)).
Proof.
  intros Hcid.
  assert (Ht : truthy_str (Some cid) = true) by (by destruct cid).
  split.
  - intros ev w' H.
    destruct (_build_event_inv _ _ _ _ _ _ _ _ _ _ H) as (aj & dj & _ & _ & -> & _).
    unfold envelope. rewrite Ht. reflexivity.
  - intros Hd Ha.
    destruct (json_dumps_dict _ (valid_mapping_safe _ Ha)) as (aj & Haj & _).
    destruct (json_dumps_dict _ (valid_mapping_safe _ Hd)) as (dj & Hdj & _).
    destruct (_build_event_returns self event_type level data service (Some cid)
                actor w aj dj Haj Hdj) as (w' & Hb & _ & Hreads).
    rewrite Ht in Hreads. by eexists _, w'.
Qed.

Lemma build_keeps_nonempty_correlation_id_witness :
  built_field (py "correlation_id")
    (_build_event (sample_logger ok_transport) (py "signup") (py "info")
       None None (Some (py "req-42")) None (fresh_world ∅ ok_transport))
  = Some (PStr (py "req-42")).
Proof.
  destruct (build_keeps_nonempty_correlation_id (sample_logger ok_transport)
              (py "signup") (py "info") None None None (py "req-42")
              (fresh_world ∅ ok_transport)) as [Hfield Hret]; [done|].
  destruct (Hret eq_refl eq_refl) as (ev & w' & Hb & _).
  unfold built_field. rewrite Hb. by apply (Hfield ev w').
Defined.

(** C9: in every envelope built by a logger that [EventLogger.__init__]
    returned, the service field is a non-empty string: the caller's override
    when a (non-empty) one is given, and the logger's own service name
    otherwise; with valid [data] and [actor] an envelope is produced. *)
Theorem build_service_nonempty
    (p_project p_topic p_environment p_service p_credentials : option str)
    (w0 w1 : World) (self : EventLogger)
    (event_type level : str) (data actor : option pydict)
    (service correlation_id : option str) (w : World) :
  EventLogger_init p_project p_topic p_environment p_service p_credentials w0
  = (Ok self, w1) ->
  (forall ev w',
     _build_event self event_type level data service correlation_id actor w = (Ok ev, w') ->
     exists name,
       dict_get (py "service") ev = Some (PStr name)
       /\ name <> []
       /\ (truthy_str service = true -> service = Some name)
       /\ (truthy_str service = false -> service_name self = Some name))
  /\ (valid_mapping data = true -> valid_mapping actor = true ->
      exists ev w',
        _build_event self event_type level data service correlation_id actor w = (Ok ev, w')).
Proof.
  intros Hinit.
  destruct (EventLogger_init_configured _ _ _ _ _ _ _ _ Hinit) as (_ & _ & _ & Hs & _).
  split.
  - intros ev w' H.
    destruct (_build_event_inv _ _ _ _ _ _ _ _ _ _ H) as (aj & dj & _ & _ & -> & _).
    unfold envelope, or_str.
    destruct (truthy_str service) eqn:Hsvc.
    + destruct service as [[|c s]|]; try done. by exists (c :: s).
    + destruct (service_name self) as [[|c s]|]; try done. by exists (c :: s).
  - intros Hd Ha.
    destruct (json_dumps_dict _ (valid_mapping_safe _ Ha)) as (aj & Haj & _).
    destruct (json_dumps_dict _ (valid_mapping_safe _ Hd)) as (dj & Hdj & _).
    destruct (_build_event_returns self event_type level data service correlation_id
                actor w aj dj Haj Hdj) as (w' & Hb & _).
    by eexists _, w'.
Qed.

(** The sample environment configures a logger for [checkout-api]. *)
Lemma sample_init :
  exists self w1,
    EventLogger_init None None None None None (fresh_world full_env ok_transport)
    = (Ok self, w1)
    /\ service_name self = Some (py "checkout-api").
Proof. eexists _, _. split; [by vm_compute|reflexivity]. Qed.

Lemma build_service_nonempty_witness :
  exists self w1,
    EventLogger_init None None None None None (fresh_world full_env ok_transport)
    = (Ok self, w1)
    /\ built_field (py "service")
         (_build_event self (py "signup") (py "info") None None None None w1)
       = Some (PStr (py "checkout-api"))
    /\ built_field (py "service")
         (_build_event self (py "signup") (py "info") None (Some (py "billing")) None
            None w1)
       = Some (PStr (py "billing")).
Proof.
  destruct sample_init as (self & w1 & Hinit & Hsvc).
  exists self, w1. split; [exact Hinit|].
  split.
  - destruct (build_service_nonempty _ _ _ _ _ _ _ _ (py "signup") (py "info")
                None None None None w1 Hinit) as [Hfield Hret].
    destruct (Hret eq_refl eq_refl) as (ev & w' & Hb).
    destruct (Hfield ev w' Hb) as (name & Hget & _ & _ & Hdefault).
    unfold built_field. rewrite Hb, Hget.
    specialize (Hdefault eq_refl). rewrite Hsvc in Hdefault. by injection Hdefault as <-.
  - destruct (build_service_nonempty _ _ _ _ _ _ _ _ (py "signup") (py "info")
                None None (Some (py "billing")) None w1 Hinit) as [Hfield Hret].
    destruct (Hret eq_refl eq_refl) as (ev & w' & Hb).
    destruct (Hfield ev w' Hb) as (name & Hget & _ & Hover & _).
    unfold built_field. rewrite Hb, Hget.
    specialize (Hover eq_refl). by injection Hover as <-.
Defined.

(** C4, amended: for every build call whose [data] and [actor] are each
    omitted, [None], or a dict of JSON-representable values ([None],
    booleans, integers, finite floats, strings, and lists and dicts of
    these) an envelope is produced whose [actor] and [data] fields are
    strings holding a JSON object, and the string is the empty object when
    the argument is [None].  A float that is not finite is outside these
    inputs, as the counterexample shows. *)
Theorem build_actor_data_json_objects
    (self : EventLogger) (event_type level : str) (data actor : option pydict)
    (service correlation_id : option str) (w : World) :
  valid_mapping data = true -> valid_mapping actor = true ->
  exists ev w' actor_json data_json,
    _build_event self event_type level data service correlation_id actor w = (Ok ev, w')
    /\ dict_get (py "actor") ev = Some (PStr actor_json)
    /\ dict_get (py "data") ev = Some (PStr data_json)
    /\ json_object actor_json /\ json_object data_json
    /\ (actor = None -> actor_json = py "{}")
    /\ (data = None -> data_json = py "{}").
Proof.
  intros Hd Ha.
  destruct (json_dumps_dict _ (valid_mapping_safe _ Ha)) as (aj & Haj & Haobj & _).
  destruct (json_dumps_dict _ (valid_mapping_safe _ Hd)) as (dj & Hdj & Hdobj & _).
  destruct (_build_event_returns self event_type level data service correlation_id
              actor w aj dj Haj Hdj) as (w' & Hb & _).
  eexists _, w', aj, dj. split; [exact Hb|].
  repeat split; try done.
  - intros ->. cbn in Haj. by injection Haj as <-.
  - intros ->. cbn in Hdj. by injection Hdj as <-.
Qed.

Lemma build_actor_data_json_objects_witness :
  exists ev w' actor_json data_json,
    _build_event (sample_logger ok_transport) (py "signup") (py "info")
      (Some [(py "user", PStr (py "abc")); (py "seats", PList [PInt 2; PFloat (FFinite false [1; 5] 1)])])
      None None None (fresh_world ∅ ok_transport) = (Ok ev, w')
    /\ dict_get (py "actor") ev = Some (PStr actor_json)
    /\ dict_get (py "data") ev = Some (PStr data_json)
    /\ json_object actor_json /\ json_object data_json
    /\ (@None pydict = None -> actor_json = py "{}")
    /\ (Some [(py "user", PStr (py "abc")); (py "seats", PList [PInt 2; PFloat (FFinite false [1; 5] 1)])] = None
        -> data_json = py "{}").
Proof. apply build_actor_data_json_objects; reflexivity. Defined.

(** C5: the [created_at] field of every envelope built is a UTC timestamp
    in ISO-8601 form that ends in Z and does not end in [+00:00], the clock
    reading being a [datetime]; with valid [data] and [actor] an envelope is
    produced. *)
Theorem build_created_at_utc_z
    (self : EventLogger) (event_type level : str) (data actor : option pydict)
    (service correlation_id : option str) (w : World) :
  datetime_ok (clock w (clock_reads w)) = true ->
  (forall ev w',
     _build_event self event_type level data service correlation_id actor w = (Ok ev, w') ->
     exists ts,
       dict_get (py "created_at") ev = Some (PStr ts)
       /\ iso8601_utc_z ts = true
       /\ endswith ts (py "Z") = true
       /\ endswith ts (py "+00:00") = false)
  /\ (valid_mapping data = true -> valid_mapping actor = true ->
      exists ev w',
        _build_event self event_type level data service correlation_id actor w = (Ok ev, w')).
Proof.
  intros Hclock. split.
  - intros ev w' H.
    destruct (_build_event_inv _ _ _ _ _ _ _ _ _ _ H) as (aj & dj & _ & _ & -> & _).
    eexists. split; [reflexivity|]. rewrite created_at_eq.
    split; [by apply iso_body_accepted|apply created_at_suffix].
  - intros Hd Ha.
    destruct (json_dumps_dict _ (valid_mapping_safe _ Ha)) as (aj & Haj & _).
    destruct (json_dumps_dict _ (valid_mapping_safe _ Hd)) as (dj & Hdj & _).
    destruct (_build_event_returns self event_type level data service correlation_id
                actor w aj dj Haj Hdj) as (w' & Hb & _).
    by eexists _, w'.
Qed.

Lemma build_created_at_utc_z_witness :
  built_field (py "created_at")
    (_build_event (sample_logger ok_transport) (py "signup") (py "info")
       None None None None (fresh_world ∅ ok_transport))
  = Some (PStr (py "2024-02-29T23:05:09.001500Z"))
  /\ iso8601_utc_z (py "2024-02-29T23:05:09.001500Z") = true.
Proof.
  destruct (build_created_at_utc_z (sample_logger ok_transport) (py "signup")
              (py "info") None None None None (fresh_world ∅ ok_transport))
    as [Hfield Hret]; [reflexivity|].
  destruct (Hret eq_refl eq_refl) as (ev & w' & Hb).
  destruct (Hfield ev w' Hb) as (ts & Hget & Hiso & _).
  assert (Hts : built_field (py "created_at")
                  (_build_event (sample_logger ok_transport) (py "signup") (py "info")
                     None None None None (fresh_world ∅ ok_transport))
                = Some (PStr (py "2024-02-29T23:05:09.001500Z"))) by (by vm_compute).
  split; [exact Hts|].
  unfold built_field in Hts. rewrite Hb, Hget in Hts. by injection Hts as <-.
Defined.

(* ===================================================================== *)
(** * Publishing *)
(* ===================================================================== *)

(** C2: once the envelope is built its payload is computed, and if the
    transport then raises an exception, [log_event] raises nothing: it
    records the failure and returns that same envelope, with its nine
    fields, and no future. *)
Theorem log_event_survives_publish_failure
    (self : EventLogger) (event_type level : str) (data actor : option pydict)
    (service correlation_id : option str) (w w1 : World) (ev : pydict) :
  _build_event self event_type level data service correlation_id actor w = (Ok ev, w1) ->
  exists payload,
    payload_of ev = Ok payload
    /\ ev.*1 = envelope_keys
    /\ forall e,
         publish (publisher self) (topic_path self) payload = Raise e ->
         is_Exception e = true ->
         exists w',
           log_event self event_type level data service correlation_id actor w
           = (Ok (ev, None), w')
           /\ last (log_records w')
              = Some (ERROR, py "Failed to publish event to Pub/Sub: " ++ exn_text e).
Proof.
  intros Hb.
  destruct (_build_event_inv _ _ _ _ _ _ _ _ _ _ Hb) as (aj & dj & _ & _ & Hev & _).
  destruct (envelope_payload self event_type level service correlation_id w aj dj)
    as (p & Hp & _).
  rewrite <- Hev in Hp. exists p. split; [exact Hp|]. split; [by rewrite Hev|].
  intros e Hpublish He.
  rewrite (log_event_run _ _ _ _ _ _ _ _ _ _ _ Hb Hp). cbn zeta.
  rewrite Hpublish, He. eexists. split; [reflexivity|].
  cbn [log_emit snd log_records]. by rewrite last_snoc.
Qed.

Lemma log_event_survives_publish_failure_witness :
  exists ev w',
    log_event (sample_logger failing_transport) (py "signup") (py "info")
      None None None None (fresh_world ∅ failing_transport)
    = (Ok (ev, None), w')
    /\ ev.*1 = envelope_keys.
Proof.
  destruct (_build_event_returns (sample_logger failing_transport) (py "signup")
              (py "info") None None None None (fresh_world ∅ failing_transport)
              (py "{}") (py "{}") eq_refl eq_refl) as (w1 & Hb & _).
  destruct (log_event_survives_publish_failure _ _ _ _ _ _ _ _ _ _ Hb)
    as (payload & _ & Hkeys & Hraise).
  destruct (Hraise (OtherException (py "ServiceUnavailable") (py "503 unavailable"))
              eq_refl eq_refl) as (w' & Hlog & _).
  eexists _, w'. split; [exact Hlog|exact Hkeys].
Defined.

(** C7: on any logger, with valid [data] and [actor] and a transport whose
    failures are exceptions, each of [debug], [info], [warning] and [error]
    returns an envelope whose level is the name of the method. *)
Theorem leveled_methods_set_level
    (self : EventLogger) (event_type : str) (correlation_id : option str)
    (data actor : option pydict) (service : option str) (w : World) :
  valid_mapping data = true -> valid_mapping actor = true ->
  raises_only_Exception (publisher self) ->
  returns_level (debug self event_type correlation_id data actor service) w (py "debug")
  /\ returns_level (info self event_type correlation_id data actor service) w (py "info")
  /\ returns_level (warning self event_type correlation_id data actor service) w
       (py "warning")
  /\ returns_level (error self event_type correlation_id data actor service) w
       (py "error").
Proof.
  intros Hd Ha Hpub.
  assert (Hd' : valid_mapping (Some (or_empty_dict data)) = true).
  { by destruct data as [[|kv d]|]. }
  assert (H : forall level,
             returns_level
               (log_event self event_type level (Some (or_empty_dict data)) service
                  correlation_id actor) w level).
  { intros level.
    destruct (log_event_returns self event_type level (Some (or_empty_dict data))
                service correlation_id actor w Hd' Ha Hpub)
      as (ev & fut & w1 & w' & Hb & Hlog).
    exists ev, fut, w'. split; [exact Hlog|].
    destruct (_build_event_inv _ _ _ _ _ _ _ _ _ _ Hb) as (aj & dj & _ & _ & -> & _).
    apply dict_get_level. }
  repeat split; apply H.
Qed.

Lemma ok_transport_raises_only_Exception : raises_only_Exception ok_transport.
Proof. by intros topic payload e. Qed.

Lemma leveled_methods_set_level_witness :
  returns_level
    (warning (sample_logger ok_transport) (py "signup") None None None None)
    (fresh_world ∅ ok_transport) (py "warning").
Proof.
  destruct (leveled_methods_set_level (sample_logger ok_transport) (py "signup")
              None None None None (fresh_world ∅ ok_transport) eq_refl eq_refl
              ok_transport_raises_only_Exception) as (_ & _ & H & _).
  exact H.
Defined.

(** What [json.dumps] emits for a not-a-number is not JSON: such a float is
    outside the valid inputs. *)
Lemma nan_dumps : json_dumps (PFloat FNaN) = Ok (py "NaN").
Proof. reflexivity. Qed.

Lemma nan_is_not_json : ~ json_value (py "NaN").
Proof.
  intros H. remember (py "NaN") as s eqn:Hs. vm_compute in Hs.
  destruct H as [ | | | s Hnum | s Hstr | w Hw | els Hels | w Hw | ms Hms ];
    try (vm_compute in Hs; discriminate).
  - destruct Hnum as [minus i f e Hi Hf He].
    destruct minus; [discriminate|].
    destruct Hi as [|d ds Hd Hds]; [discriminate|].
    injection Hs as -> _. discriminate.
  - destruct Hstr. discriminate.
Qed.

(* --------------------------------------------------------------------- *)
(** ** A mapping with a not-a-number *)

Lemma last_nonws_app a b :
  last_nonws (a ++ b)
  = match last_nonws b with Some c => Some c | None => last_nonws a end.
Proof.
  induction a as [|c a IH]; cbn [app last_nonws].
  - by destruct (last_nonws b).
  - rewrite IH. by destruct (last_nonws b).
Qed.

Lemma last_nonws_ws w : json_ws w -> last_nonws w = None.
Proof.
  unfold json_ws. induction w as [|c w IH]; [done|].
  cbn [forallb last_nonws]. intros [Hc Hw]%andb_true_iff.
  by rewrite (IH Hw), Hc.
Qed.

Lemma last_nonws_last a c : is_ws c = false -> last_nonws (a ++ [c]) = Some c.
Proof. intros Hc. rewrite last_nonws_app. cbn. by rewrite Hc. Qed.

Lemma value_end_digit c : is_digit c = true -> value_end c = true /\ is_ws c = false.
Proof.
  unfold value_end, is_ws, is_digit. intros [H1 H2]%andb_true_iff.
  apply N.leb_le in H1, H2. split.
  - by rewrite (proj2 (andb_true_iff _ _) (conj (proj2 (N.leb_le _ _) H1)
                                               (proj2 (N.leb_le _ _) H2))).
  - repeat (apply orb_false_iff; split); apply N.eqb_neq; lia.
Qed.

Lemma last_nonws_digits ds :
  ds <> [] -> forallb is_digit ds = true ->
  exists c, last_nonws ds = Some c /\ value_end c = true.
Proof.
  induction ds as [|d ds IH]; [done|]. intros _.
  cbn [forallb last_nonws]. intros [Hd Hds]%andb_true_iff.
  destruct ds as [|d' ds'].
  - cbn [last_nonws]. destruct (value_end_digit d Hd) as [Hv ->]. by exists d.
  - destruct (IH ltac:(done) Hds) as (c & -> & Hc). by exists c.
Qed.

(** A number ends on a digit. *)
Lemma json_number_end s :
  json_number s -> exists c, last_nonws s = Some c /\ value_end c = true.
Proof.
  intros [minus i f e Hi Hf He].
  rewrite !last_nonws_app.
  destruct He as [|e0 sign ds He0 Hsign [Hne Hds]].
  - cbn [last_nonws]. destruct Hf as [|ds [Hne Hds]].
    + cbn [last_nonws].
      assert (Hint : exists c, last_nonws i = Some c /\ value_end c = true).
      { destruct Hi as [|d ds Hd Hds].
        - by exists 48.
        - apply last_nonws_digits; [done|]. cbn [forallb]. rewrite Hds.
          unfold is_digit19 in Hd. unfold is_digit.
          apply andb_true_iff in Hd as [H1 H2]. apply N.leb_le in H1.
          rewrite H2, andb_true_r. apply andb_true_iff. split; [|done].
          apply N.leb_le. lia. }
      destruct Hint as (c & -> & Hc). by exists c.
    + change (46 :: ds) with ([46] ++ ds). rewrite last_nonws_app.
      destruct (last_nonws_digits ds Hne Hds) as (c & -> & Hc). by exists c.
  - change (e0 :: sign ++ ds) with ([e0] ++ sign ++ ds). rewrite !last_nonws_app.
    destruct (last_nonws_digits ds Hne Hds) as (c & -> & Hc). by exists c.
Qed.

(** Every JSON value ends on one of the characters of [value_end]. *)
Lemma json_value_end v :
  json_value v -> exists c, last_nonws v = Some c /\ value_end c = true.
Proof.
  intros [ | | | s Hnum | s Hstr | w Hw | els Hels | w Hw | ms Hms ].
  - by exists 108.
  - by exists 101.
  - by exists 101.
  - by apply json_number_end.
  - destruct Hstr as [body _]. exists 34.
    change (34 :: body ++ [34]) with ((34 :: body) ++ [34]).
    by rewrite last_nonws_last.
  - exists 93. change (91 :: w ++ [93]) with ((91 :: w) ++ [93]).
    by rewrite last_nonws_last.
  - exists 93. change (91 :: els ++ [93]) with ((91 :: els) ++ [93]).
    by rewrite last_nonws_last.
  - exists 125. change (123 :: w ++ [125]) with ((123 :: w) ++ [125]).
    by rewrite last_nonws_last.
  - exists 125. change (123 :: ms ++ [125]) with ((123 :: ms) ++ [125]).
    by rewrite last_nonws_last.
Qed.

(** So does every sequence of members, up to trailing white space. *)
Lemma json_members_end ms :
  json_members ms -> exists c, last_nonws ms = Some c /\ value_end c = true.
Proof.
  induction 1 as [w1 k w2 w3 v w4 _ _ _ _ Hv Hw4
                 |w1 k w2 w3 v w4 rest _ _ _ _ _ _ _ IH].
  - change (58 :: w3 ++ v ++ w4) with ([58] ++ w3 ++ v ++ w4).
    rewrite !last_nonws_app, (last_nonws_ws w4 Hw4).
    destruct (json_value_end v Hv) as (c & -> & Hc). by exists c.
  - change (58 :: w3 ++ v ++ w4 ++ 44 :: rest)
      with ([58] ++ w3 ++ v ++ w4 ++ [44] ++ rest).
    rewrite !last_nonws_app. destruct IH as (c & -> & Hc). by exists c.
Qed.

Lemma nan_data_json_not_object : ~ json_object nan_data_json.
Proof.
  intros H. remember nan_data_json as s eqn:Hs.
  change nan_data_json with (123 :: (34 :: 120 :: 34 :: py ": NaN") ++ [125]) in Hs.
  destruct H as [w Hw|ms Hms]; injection Hs as Hs.
  - apply (app_inj_tail w (34 :: 120 :: 34 :: py ": NaN") 125 125) in Hs as [-> _].
    apply last_nonws_ws in Hw. vm_compute in Hw. discriminate Hw.
  - apply (app_inj_tail ms (34 :: 120 :: 34 :: py ": NaN") 125 125) in Hs as [-> _].
    destruct (json_members_end _ Hms) as (c & Hlast & Hc).
    vm_compute in Hlast. injection Hlast as <-. vm_compute in Hc. discriminate Hc.
Qed.

Lemma nan_data_json_not_value : ~ json_value nan_data_json.
Proof.
  intros H. remember nan_data_json as s eqn:Hs.
  destruct H as [ | | | s Hnum | s Hstr | w Hw | els Hels | w Hw | ms Hms ];
    try discriminate Hs.
  - destruct Hnum as [minus i f e Hi Hf He].
    destruct minus; [discriminate Hs|].
    destruct Hi as [|d ds Hd Hds]; [discriminate Hs|].
    injection Hs as -> _. discriminate Hd.
  - destruct Hstr. discriminate Hs.
  - apply nan_data_json_not_object. rewrite <- Hs. by constructor.
  - apply nan_data_json_not_object. rewrite <- Hs. by constructor 2.
Qed.

(** C4, counterexample: a [data] dict holding a float not-a-number is
    accepted by the build: the envelope comes back, and its [data] field is
    the text with the bare token NaN, which is neither a JSON object nor any
    JSON value. *)
Theorem build_nan_data_not_json :
  exists ev w',
    _build_event (sample_logger ok_transport) (py "signup") (py "info")
      (Some nan_data) None None None (fresh_world ∅ ok_transport) = (Ok ev, w')
    /\ dict_get (py "data") ev = Some (PStr nan_data_json)
    /\ ~ json_object nan_data_json
    /\ ~ json_value nan_data_json.
Proof.
  destruct (_build_event_returns (sample_logger ok_transport) (py "signup")
              (py "info") (Some nan_data) None None None
              (fresh_world ∅ ok_transport) (py "{}") nan_data_json
              eq_refl eq_refl) as (w' & Hb & _).
  eexists _, w'. split; [exact Hb|]. split; [reflexivity|].
  split; [exact nan_data_json_not_object|exact nan_data_json_not_value].
Qed.

(** A failure that is not an [Exception] is not caught. *)
Lemma log_event_propagates_non_Exception
    self event_type level data service correlation_id actor w ev w1 p e :
  _build_event self event_type level data service correlation_id actor w = (Ok ev, w1) ->
  payload_of ev = Ok p ->
  publish (publisher self) (topic_path self) p = Raise e ->
  is_Exception e = false ->
  (log_event self event_type level data service correlation_id actor w).1 = Raise e.
Proof.
  intros Hb Hp Hpublish He.
  rewrite (log_event_run _ _ _ _ _ _ _ _ _ _ _ Hb Hp). cbn zeta.
  by rewrite Hpublish, He.
Qed.

(** On success the future of the transport is returned with the envelope. *)
Lemma log_event_published
    self event_type level data service correlation_id actor w ev w1 p fut :
  _build_event self event_type level data service correlation_id actor w = (Ok ev, w1) ->
  payload_of ev = Ok p ->
  publish (publisher self) (topic_path self) p = Ok fut ->
  (log_event self event_type level data service correlation_id actor w).1
  = Ok (ev, Some fut).
Proof.
  intros Hb Hp Hpublish.
  rewrite (log_event_run _ _ _ _ _ _ _ _ _ _ _ Hb Hp). cbn zeta.
  by rewrite Hpublish.
Qed.

(** A process that has only just loaded the module has no logger. *)
Lemma fresh_world_uninitialized env transport :
  _event_logger (fresh_world env transport) = None.
Proof. reflexivity. Qed.

(** After a successful [init_event_logger] the accessor returns the logger
    that was built. *)
Lemma get_after_init p_project p_topic p_environment p_service p_credentials w self w' :
  init_event_logger p_project p_topic p_environment p_service p_credentials w
  = (Ok self, w') ->
  (get_event_logger w').1 = Ok (Real self).
Proof.
  intros H.
  destruct (EventLogger_init p_project p_topic p_environment p_service
              p_credentials w) as [[lg|e] w1] eqn:Hinit.
  - destruct (init_event_logger_installs _ _ _ _ _ _ _ _ Hinit) as (w2 & Heq & Hg).
    rewrite Heq in H. injection H as <- <-.
    unfold get_event_logger. by rewrite Hg.
  - revert H. unfold init_event_logger. unfold bind at 1. by rewrite Hinit.
Qed.

(* ===================================================================== *)
(** * Further properties: construction *)
(* ===================================================================== *)

Lemma startswith_app s rest : startswith (s ++ rest) s = true.
Proof. induction s as [|c s IH]; simpl; [by destruct rest|]. by rewrite N.eqb_refl. Qed.

Lemma contains_app needle pre post : contains needle (pre ++ needle ++ post) = true.
Proof.
  induction pre as [|c pre IH].
  - destruct needle as [|n needle]; [by destruct post|].
    cbn [app contains]. change (n :: needle ++ post) with ((n :: needle) ++ post).
    by rewrite startswith_app.
  - cbn [app contains]. rewrite IH. apply orb_true_r.
Qed.

Lemma join_In sep name parts :
  In name parts -> exists pre post, join sep parts = pre ++ name ++ post.
Proof.
  induction parts as [|p rest IH]; [done|].
  intros [->|Hin].
  - cbn [join]. destruct rest.
    + exists [], []. by rewrite app_nil_r.
    + by exists [], (sep ++ join sep (l :: rest)).
  - destruct (IH Hin) as (pre & post & Heq). cbn [join].
    destruct rest as [|q rest]; [done|].
    exists (p ++ sep ++ pre), post. rewrite Heq. by rewrite <- !app_assoc.
Qed.

Lemma missing_config_In name required :
  In name (missing_config required) <->
  exists value, In (name, value) required /\ truthy_str value = false.
Proof.
  unfold missing_config. rewrite <- list_elem_of_In, list_elem_of_fmap. split.
  - intros ([n v] & -> & Hin). apply list_elem_of_filter in Hin as [Hf Hin].
    exists v. split; [by apply list_elem_of_In|done].
  - intros (v & Hin & Hf). exists (name, v). split; [done|].
    apply list_elem_of_filter. split; [done|by apply list_elem_of_In].
Qed.

(** The list comprehension over [required] keeps, setting by setting and
    in the order of the dict, the name of each empty one. *)
Lemma missing_config_cons name value required :
  missing_config ((name, value) :: required)
  = (if truthy_str value then [] else [name]) ++ missing_config required.
Proof.
  unfold missing_config. rewrite filter_cons. cbn [snd].
  destruct (truthy_str value); by destruct (decide _).
Qed.

(** With a setting missing the constructor raises at once. *)
Lemma EventLogger_init_missing
    (p_project p_topic p_environment p_service p_credentials : option str)
    (w : World) :
  let c := resolve p_project p_topic p_environment p_service p_credentials w in
  missing_of c <> [] ->
  EventLogger_init p_project p_topic p_environment p_service p_credentials w
  = (Raise (ValueError (py "Missing required config for EventLogger: "
                          ++ join (py ", ") (missing_of c))), w).
Proof.
  intros c Hmissing. rewrite EventLogger_init_run. fold c. cbn zeta.
  by destruct (missing_of c).
Qed.

(** Whatever the parameters and the environment, when at least one of the
    five settings is empty after the environment has been consulted the
    constructor raises a single [ValueError], before any credential is
    loaded.  Its message is the fixed prefix followed by the names of
    exactly the empty settings, separated by a comma and a space, in the
    fixed order project, topic, environment, service, credentials. *)
Theorem init_reports_every_missing_setting
    (p_project p_topic p_environment p_service p_credentials : option str)
    (w : World) :
  let setting (parameter : option str) (variable : str) :=
    if truthy_str parameter then parameter else environ w !! variable in
  let topic :=
    if truthy_str p_topic then p_topic
    else Some (default (py "events") (environ w !! py "LOG_TOPIC")) in
  let absent (value : option str) (name : str) : list str :=
    if truthy_str value then [] else [name] in
  let names :=
    absent (setting p_project (py "LOG_GCP_PROJECT")) (py "LOG_GCP_PROJECT / project_id")
    ++ absent topic (py "LOG_TOPIC / topic_name")
    ++ absent (setting p_environment (py "LOG_ENVIRONMENT"))
         (py "LOG_ENVIRONMENT / environment")
    ++ absent (setting p_service (py "LOG_SERVICE_NAME"))
         (py "LOG_SERVICE_NAME / service_name")
    ++ absent (setting p_credentials (py "LOG_GCP_CREDENTIALS"))
         (py "LOG_GCP_CREDENTIALS / credentials_path") in
  names <> [] ->
  EventLogger_init p_project p_topic p_environment p_service p_credentials w
  = (Raise (ValueError (py "Missing required config for EventLogger: "
                          ++ join (py ", ") names)), w).
Proof.
  intros setting topic absent names.
  pose (c := resolve p_project p_topic p_environment p_service p_credentials w).
  assert (Hnames : missing_of c = names).
  { unfold missing_of, required_config. rewrite !missing_config_cons.
    change (missing_config []) with (@nil str). by rewrite app_nil_r. }
  rewrite <- Hnames. apply EventLogger_init_missing.
Qed.

Lemma init_reports_every_missing_setting_witness :
  (EventLogger_init (Some (py "bookings-prod")) None None None (Some [])
     (fresh_world ∅ ok_transport)).1
  = Raise (ValueError
             (py "Missing required config for EventLogger: LOG_ENVIRONMENT / environment, LOG_SERVICE_NAME / service_name, LOG_GCP_CREDENTIALS / credentials_path")).
Proof.
  rewrite (init_reports_every_missing_setting (Some (py "bookings-prod")) None None
             None (Some []) (fresh_world ∅ ok_transport)).
  - cbn [fst]. vm_compute. reflexivity.
  - vm_compute. discriminate.
Defined.

(** A logger that was constructed holds, for each setting, the parameter
    when that is non-empty and otherwise the environment variable (for the
    topic: the variable, or [events] when it is unset): an explicit
    parameter takes precedence, an empty one counts as absent. *)
Theorem init_parameter_precedence
    (p_project p_topic p_environment p_service p_credentials : option str)
    (w w' : World) (self : EventLogger) :
  EventLogger_init p_project p_topic p_environment p_service p_credentials w
  = (Ok self, w') ->
  project_id self
  = (if truthy_str p_project then p_project else environ w !! py "LOG_GCP_PROJECT")
  /\ topic_name self
     = (if truthy_str p_topic then p_topic
        else Some (default (py "events") (environ w !! py "LOG_TOPIC")))
  /\ environment self
     = (if truthy_str p_environment then p_environment
        else environ w !! py "LOG_ENVIRONMENT")
  /\ service_name self
     = (if truthy_str p_service then p_service else environ w !! py "LOG_SERVICE_NAME")
  /\ credentials_path self
     = (if truthy_str p_credentials then p_credentials
        else environ w !! py "LOG_GCP_CREDENTIALS")
  /\ topic_path self
     = py "projects/" ++ str_of (project_id self) ++ py "/topics/"
         ++ str_of (topic_name self).
Proof.
  rewrite EventLogger_init_run. cbn zeta.
  destruct (missing_of _); [|done].
  destruct (service_account_file w _); [|done].
  destruct (publisher_client w _); [|done].
  intros [= <- <-]. by repeat split.
Qed.

Lemma init_parameter_precedence_witness :
  exists self w',
    EventLogger_init None (Some (py "audit")) None (Some (py "billing")) None
      (fresh_world full_env ok_transport) = (Ok self, w')
    /\ service_name self = Some (py "billing")
    /\ topic_name self = Some (py "audit")
    /\ project_id self = Some (py "bookings-prod").
Proof.
  destruct (EventLogger_init None (Some (py "audit")) None (Some (py "billing")) None
              (fresh_world full_env ok_transport)) as [[self|e] w'] eqn:H.
  - exists self, w'. split; [reflexivity|].
    destruct (init_parameter_precedence _ _ _ _ _ _ _ _ H)
      as (Hp & Ht & _ & Hs & _).
    rewrite Hp, Ht, Hs. repeat split; vm_compute; reflexivity.
  - exfalso. revert H. rewrite EventLogger_init_run. vm_compute. discriminate.
Defined.

(** The default topic applies only when [LOG_TOPIC] is unset: with the
    variable set to the empty string and no topic parameter the topic counts
    as missing, and the error names it. *)
Theorem init_empty_topic_variable_is_missing
    (p_project p_topic p_environment p_service p_credentials : option str)
    (w : World) :
  truthy_str p_topic = false ->
  environ w !! py "LOG_TOPIC" = Some [] ->
  exists message,
    EventLogger_init p_project p_topic p_environment p_service p_credentials w
    = (Raise (ValueError message), w)
    /\ contains (py "LOG_TOPIC / topic_name") message = true.
Proof.
  intros Ht Et.
  pose (c := resolve p_project p_topic p_environment p_service p_credentials w).
  assert (Hin : In (py "LOG_TOPIC / topic_name") (missing_of c)).
  { apply missing_config_In. exists (r_topic c). split.
    - right. by left.
    - unfold c, resolve, or_str. cbn [r_topic]. by rewrite Ht, Et. }
  eexists. split.
  - apply EventLogger_init_missing. fold c. by destruct (missing_of c).
  - fold c. destruct (join_In (py ", ") _ _ Hin) as (pre & post & ->).
    rewrite app_assoc. apply contains_app.
Qed.

Lemma init_empty_topic_variable_is_missing_witness :
  (EventLogger_init None None None None None
     (fresh_world env_with_empty_topic ok_transport)).1
  = Raise (ValueError
             (py "Missing required config for EventLogger: LOG_TOPIC / topic_name")).
Proof.
  destruct (init_empty_topic_variable_is_missing None None None None None
              (fresh_world env_with_empty_topic ok_transport))
    as (message & H & _); [reflexivity|by vm_compute|].
  rewrite H. cbn [fst]. f_equal.
  assert (Hm : (EventLogger_init None None None None None
                  (fresh_world env_with_empty_topic ok_transport)).1
               = Raise (ValueError
                   (py "Missing required config for EventLogger: LOG_TOPIC / topic_name")))
    by (vm_compute; reflexivity).
  rewrite H in Hm. cbn [fst] in Hm. by injection Hm as ->.
Defined.

(** With all five settings present, a failure to load the credentials or to
    create the publisher client is raised by the constructor as it is, and
    nothing is logged. *)
Theorem init_collaborator_failure_propagates
    (p_project p_topic p_environment p_service p_credentials : option str)
    (w : World) (e : exn) :
  let c := resolve p_project p_topic p_environment p_service p_credentials w in
  missing_of c = [] ->
  service_account_file w (r_credentials c) = Raise e
  \/ (exists creds, service_account_file w (r_credentials c) = Ok creds
                    /\ publisher_client w creds = Raise e) ->
  EventLogger_init p_project p_topic p_environment p_service p_credentials w
  = (Raise e, w).
Proof.
  intros c Hm Hfail. rewrite EventLogger_init_run. fold c. cbn zeta. rewrite Hm.
  destruct Hfail as [->|(creds & -> & ->)]; reflexivity.
Qed.

Lemma init_collaborator_failure_propagates_witness :
  EventLogger_init None None None None None unreadable_credentials_world
  = (Raise (OtherException (py "FileNotFoundError") (py "/etc/sa.json")),
     unreadable_credentials_world).
Proof.
  refine (init_collaborator_failure_propagates None None None None None
            unreadable_credentials_world _ _ _).
  - vm_compute. reflexivity.
  - left. reflexivity.
Defined.

(** After [init_event_logger] has returned a logger, [get_event_logger]
    returns that logger, whatever was installed before, and does so without
    logging or changing anything. *)
Theorem init_then_get
    (p_project p_topic p_environment p_service p_credentials : option str)
    (w w' : World) (self : EventLogger) :
  init_event_logger p_project p_topic p_environment p_service p_credentials w
  = (Ok self, w') ->
  get_event_logger w' = (Ok (Real self), w')
  /\ last (log_records w')
     = Some (INFO, py "EventLogger initialized for service="
                     ++ str_of (service_name self)
                     ++ py ", environment=" ++ str_of (environment self)).
Proof.
  intros H.
  destruct (EventLogger_init p_project p_topic p_environment p_service
              p_credentials w) as [[lg|e] w1] eqn:Hinit.
  - revert H. unfold init_event_logger. unfold bind at 1. rewrite Hinit.
    destruct lg. unfold bind, set_event_logger, log_emit, ret. cbn.
    intros [= <- <-]. split; [reflexivity|]. cbn. by rewrite last_snoc.
  - revert H. unfold init_event_logger. unfold bind at 1. by rewrite Hinit.
Qed.

Lemma init_then_get_witness :
  exists self w',
    init_event_logger None None None None None (fresh_world full_env ok_transport)
    = (Ok self, w')
    /\ get_event_logger w' = (Ok (Real self), w').
Proof.
  destruct (init_event_logger None None None None None
              (fresh_world full_env ok_transport)) as [[self|e] w'] eqn:H.
  - exists self, w'. split; [reflexivity|].
    by destruct (init_then_get _ _ _ _ _ _ _ _ H) as [Hget _].
  - exfalso. apply init_event_logger_raises in H.
    revert H. rewrite EventLogger_init_run. vm_compute. discriminate.
Defined.

(* ===================================================================== *)
(** * Further properties: identifiers *)
(* ===================================================================== *)

Lemma fixed_digits_zero b k : fixed_digits b k 0 = replicate k 48.
Proof.
  induction k as [|k IH]; [done|]. cbn [fixed_digits].
  rewrite N.Div0.div_0_l, N.Div0.mod_0_l, IH.
  change (digit_char 0) with 48. clear.
  induction k as [|k IH]; [done|]. cbn. by rewrite IH.
Qed.

Lemma fixed_digits_length b k n : length (fixed_digits b k n) = k.
Proof.
  revert n. induction k as [|k IH]; intros n; [done|].
  cbn [fixed_digits]. rewrite length_app, IH. simpl. lia.
Qed.

(** Padding the digits of a number that fits in [k] digits gives exactly
    its [k] low digits. *)
Lemma zfill_to_base_fuel b fuel k n :
  2 <= b -> n < b ^ N.of_nat (S fuel) -> n < b ^ N.of_nat (S k) ->
  zfill (S k) (to_base_fuel (S fuel) b n []) = fixed_digits b (S k) n.
Proof.
  intros Hb. revert fuel n. induction k as [|k IH]; intros fuel n Hfuel Hk.
  - cbn [to_base_fuel fixed_digits].
    rewrite (pow_succ_nat b), N.mul_1_r in Hk.
    rewrite (N.div_small n b) by done. by rewrite N.eqb_refl.
  - cbn [to_base_fuel]. destruct (n / b =? 0) eqn:Hq.
    + apply N.eqb_eq in Hq. cbn [fixed_digits].
      rewrite Hq, N.Div0.div_0_l, N.Div0.mod_0_l, fixed_digits_zero.
      unfold zfill. cbn [length]. change (digit_char 0) with 48.
      replace (S (S k) - 1)%nat with (S k) by lia.
      change (replicate (S k) 48) with (48 :: replicate k 48).
      cbn [app]. f_equal. clear. induction k as [|k IH]; [done|]. cbn. by rewrite IH.
    + apply N.eqb_neq in Hq.
      assert (Hfuel' : n / b < b ^ N.of_nat fuel).
      { apply N.Div0.div_lt_upper_bound. by rewrite <- (pow_succ_nat b). }
      assert (Hk' : n / b < b ^ N.of_nat (S k)).
      { apply N.Div0.div_lt_upper_bound. by rewrite <- (pow_succ_nat b). }
      destruct fuel as [|fuel];
        [exfalso; apply Hq, N.lt_1_r;
         change (N.of_nat 0) with 0 in Hfuel'; by rewrite N.pow_0_r in Hfuel'|].
      rewrite (to_base_fuel_acc b).
      change (fixed_digits b (S (S k)) n)
        with (fixed_digits b (S k) (n / b) ++ [digit_char (n mod b)]).
      rewrite <- (IH fuel (n / b) Hfuel' Hk').
      unfold zfill. rewrite length_app. cbn [length].
      replace (S (S k) - (length (to_base_fuel (S fuel) b (n / b) []) + 1))%nat
        with (S k - length (to_base_fuel (S fuel) b (n / b) []))%nat by lia.
      by rewrite <- app_assoc.
Qed.

Lemma zfill_to_base b k n :
  2 <= b -> n < b ^ N.of_nat (S k) ->
  zfill (S k) (to_base b n) = fixed_digits b (S k) n.
Proof.
  intros Hb Hn. unfold to_base.
  apply zfill_to_base_fuel; [done| |done]. by apply fuel_enough.
Qed.

(** The digit at position [i] from the left. *)
Lemma fixed_digits_lookup b k n i :
  (i < k)%nat ->
  fixed_digits b k n !! i
  = Some (digit_char ((n / b ^ N.of_nat (k - 1 - i)) mod b)).
Proof.
  revert n i. induction k as [|k IH]; intros n i Hi; [lia|].
  cbn [fixed_digits].
  destruct (decide (i = k)) as [->|Hne].
  - rewrite lookup_app_r by (rewrite fixed_digits_length; lia).
    rewrite fixed_digits_length.
    replace (k - k)%nat with 0%nat by lia.
    replace (S k - 1 - k)%nat with 0%nat by lia.
    cbn. by rewrite N.div_1_r.
  - rewrite lookup_app_l by (rewrite fixed_digits_length; lia).
    rewrite IH by lia. do 2 f_equal.
    replace (S k - 1 - i)%nat with (S (k - 1 - i)) by lia.
    rewrite Nat2N.inj_succ, N.pow_succ_r', N.Div0.div_div. done.
Qed.

(* --------------------------------------------------------------------- *)
(** ** The bits [uuid4] forces *)

Lemma below_pow2_of_bits i k :
  (forall n, k <= n -> N.testbit i n = false) -> i < 2 ^ k.
Proof.
  intros H. destruct (N.eq_dec i 0) as [->|Hnz].
  - apply N.neq_0_lt_0, N.pow_nonzero. lia.
  - apply N.log2_lt_pow2; [lia|].
    destruct (N.lt_ge_cases (N.log2 i) k) as [?|Hge]; [done|].
    specialize (H _ Hge). rewrite N.bit_log2 in H by done. discriminate.
Qed.

Lemma uuid4_int_high_bits r n : 128 <= n -> N.testbit (uuid4_int r) n = false.
Proof.
  intros Hn. unfold uuid4_int.
  rewrite N.lor_spec, N.ldiff_spec, N.lor_spec, N.ldiff_spec, N.land_spec.
  rewrite (N.ones_spec_high 128 n) by done.
  rewrite (N.bits_above_log2 (N.shiftl 0x8000 48) n)
    by (change (N.log2 (N.shiftl 0x8000 48)) with 63; lia).
  rewrite (N.bits_above_log2 (N.shiftl 4 76) n)
    by (change (N.log2 (N.shiftl 4 76)) with 78; lia).
  by rewrite andb_false_r.
Qed.

Lemma uuid4_int_bound r : uuid4_int r < 2 ^ 128.
Proof. apply below_pow2_of_bits, uuid4_int_high_bits. Qed.

Lemma uuid4_int_bit r n :
  N.testbit (uuid4_int r) n =
  (N.testbit r n && N.testbit (N.ones 128) n
     && negb (N.testbit (N.shiftl 0xc000 48) n)
   || N.testbit (N.shiftl 0x8000 48) n)
  && negb (N.testbit (N.shiftl 0xf000 64) n)
  || N.testbit (N.shiftl 4 76) n.
Proof.
  unfold uuid4_int.
  by rewrite N.lor_spec, N.ldiff_spec, N.lor_spec, N.ldiff_spec, N.land_spec.
Qed.

Lemma small_index n : n < 4 -> n = 0 \/ n = 1 \/ n = 2 \/ n = 3.
Proof. lia. Qed.

(** The version nibble is 4. *)
Lemma uuid4_version r : (uuid4_int r / 2 ^ 76) mod 16 = 4.
Proof.
  rewrite <- N.shiftr_div_pow2. change 16 with (2 ^ 4). rewrite <- N.land_ones.
  apply N.bits_inj. intros n. rewrite N.land_spec, N.shiftr_spec'.
  destruct (N.lt_ge_cases n 4) as [Hn|Hn].
  - rewrite uuid4_int_bit.
    destruct (small_index n Hn) as [-> | [-> | [-> | ->]]]; cbn; by rewrite ?andb_false_r.
  - rewrite (N.ones_spec_high 4 n) by done. rewrite andb_false_r.
    symmetry. apply N.bits_above_log2. change (N.log2 4) with 2. lia.
Qed.

(** The variant nibble is 8, 9, 10 or 11. *)
Lemma uuid4_variant r : 8 <= (uuid4_int r / 2 ^ 60) mod 16 <= 11.
Proof.
  rewrite <- N.shiftr_div_pow2. change 16 with (2 ^ 4). rewrite <- N.land_ones.
  set (v := N.land (N.shiftr (uuid4_int r) 60) (N.ones 4)).
  assert (H3 : N.testbit v 3 = true).
  { unfold v. rewrite N.land_spec, N.shiftr_spec', uuid4_int_bit. cbn.
    by rewrite ?andb_false_r, ?orb_true_r. }
  assert (H2 : N.testbit v 2 = false).
  { unfold v. rewrite N.land_spec, N.shiftr_spec', uuid4_int_bit. cbn.
    by rewrite ?andb_false_r. }
  assert (Hlt : v < 2 ^ 4).
  { unfold v. rewrite N.land_ones. apply N.mod_lt. done. }
  rewrite N.testbit_eqb in H3, H2.
  apply N.eqb_eq in H3. apply N.eqb_neq in H2.
  change (2 ^ 3) with 8 in H3. change (2 ^ 2) with 4 in H2. change (2 ^ 4) with 16 in Hlt.
  lia.
Qed.

Lemma digit_char_lower_hex d : d < 16 -> is_lower_hex (digit_char d) = true.
Proof.
  intros H. unfold is_lower_hex, is_digit, digit_char.
  destruct (N.ltb_spec d 10); nbool; lia.
Qed.

Lemma fixed_digits_lower_hex k n : forallb is_lower_hex (fixed_digits 16 k n) = true.
Proof.
  revert n. induction k as [|k IH]; intros n; [done|].
  cbn [fixed_digits]. rewrite forallb_app, IH. cbn [forallb].
  rewrite digit_char_lower_hex by (apply N.mod_lt; lia). done.
Qed.

(** Whatever the random bytes, [str(uuid.uuid4())] has the canonical form of
    a version 4 UUID. *)
Lemma uuid4_str_canonical r : is_uuid4 (uuid_str (uuid4_int r)) = true.
Proof.
  unfold uuid_str, fmt_0x.
  rewrite (zfill_to_base 16 31) by (lia || apply uuid4_int_bound).
  pose proof (fixed_digits_length 16 32 (uuid4_int r)) as Hlen.
  pose proof (fixed_digits_lower_hex 32 (uuid4_int r)) as Hhex.
  pose proof (fixed_digits_lookup 16 32 (uuid4_int r) 12 ltac:(lia)) as Hver.
  pose proof (fixed_digits_lookup 16 32 (uuid4_int r) 16 ltac:(lia)) as Hvar.
  change (16 ^ N.of_nat (32 - 1 - 12)) with (2 ^ 76) in Hver.
  change (16 ^ N.of_nat (32 - 1 - 16)) with (2 ^ 60) in Hvar.
  rewrite uuid4_version in Hver.
  pose proof (uuid4_variant r) as Hrange.
  set (v := (uuid4_int r / 2 ^ 60) mod 16) in *.
  assert (Hv : digit_char v = 56 \/ digit_char v = 57
               \/ digit_char v = 97 \/ digit_char v = 98).
  { unfold digit_char. destruct (N.ltb_spec v 10); lia. }
  clearbody v. revert Hlen Hhex Hver Hvar.
  generalize (fixed_digits 16 32 (uuid4_int r)). intros hex Hlen Hhex Hver Hvar.
  do 32 (destruct hex as [|? hex]; [discriminate Hlen|]).
  destruct hex; [|discriminate Hlen].
  cbn in Hver, Hvar. injection Hver as ->. injection Hvar as ->.
  cbn [forallb] in Hhex. rewrite !andb_true_iff in Hhex.
  destruct Hhex as (?&?&?&?&?&?&?&?&?&?&?&?&?&?&?&?&?&?&?&?&?&?&?&?&?&?&?&?&?&?&?&?&_).
  cbn [slice take drop app py fmap list_fmap list_ascii_of_string Nat.sub].
  cbn [is_uuid4 forallb].
  repeat match goal with H : is_lower_hex _ = true |- _ => rewrite H; clear H end.
  cbn. destruct Hv as [-> | [-> | [-> | ->]]]; reflexivity.
Qed.

(* ===================================================================== *)
(** * Further properties: the envelope *)
(* ===================================================================== *)

(** A build reads the world but writes no log record. *)
Lemma _build_event_logs self event_type level data service correlation_id actor w r w' :
  _build_event self event_type level data service correlation_id actor w = (r, w') ->
  log_records w' = log_records w.
Proof.
  unfold _build_event. run.
  destruct (truthy_str correlation_id); run;
    destruct (json_dumps (PDict (or_empty_dict actor))); run;
    try destruct (json_dumps (PDict (or_empty_dict data))); run;
    by intros [= <- <-].
Qed.

(** The event id of every envelope is a version 4 UUID in canonical text
    form, made from the next unread random bytes. *)
Theorem build_event_id_is_uuid4
    (self : EventLogger) (event_type level : str) (data actor : option pydict)
    (service correlation_id : option str) (w w' : World) (ev : pydict) :
  _build_event self event_type level data service correlation_id actor w = (Ok ev, w') ->
  exists id,
    dict_get (py "event_id") ev = Some (PStr id)
    /\ id = uuid_str (uuid4_int (urandom w (urandom_reads w)))
    /\ is_uuid4 id = true.
Proof.
  intros H.
  destruct (_build_event_inv _ _ _ _ _ _ _ _ _ _ H) as (aj & dj & _ & _ & -> & _).
  eexists. split; [reflexivity|]. split; [reflexivity|apply uuid4_str_canonical].
Qed.

Lemma build_event_id_is_uuid4_witness :
  built_field (py "event_id")
    (_build_event (sample_logger ok_transport) (py "signup") (py "info")
       None None None None (fresh_world ∅ ok_transport))
  = Some (PStr (py "01234567-89ab-4def-8123-456789abcdef"))
  /\ is_uuid4 (py "01234567-89ab-4def-8123-456789abcdef") = true.
Proof.
  destruct (_build_event (sample_logger ok_transport) (py "signup") (py "info")
              None None None None (fresh_world ∅ ok_transport))
    as [[ev|e] w'] eqn:H.
  - destruct (build_event_id_is_uuid4 _ _ _ _ _ _ _ _ _ _ H) as (id & Hget & Hid & Hok).
    cbn [built_field]. rewrite Hget.
    assert (Heq : id = py "01234567-89ab-4def-8123-456789abcdef")
      by (rewrite Hid; vm_compute; reflexivity).
    rewrite <- Heq. split; [reflexivity|exact Hok].
  - exfalso.
    destruct (_build_event_returns (sample_logger ok_transport) (py "signup")
                (py "info") None None None None (fresh_world ∅ ok_transport)
                (py "{}") (py "{}") eq_refl eq_refl) as (w1 & Hb & _).
    rewrite Hb in H. discriminate H.
Defined.

(** With the correlation id omitted, [None] or empty, the envelope carries a
    second, freshly generated version 4 UUID, made from the random bytes
    read right after those of the event id; two draws are consumed. *)
Theorem build_generates_correlation_id
    (self : EventLogger) (event_type level : str) (data actor : option pydict)
    (service correlation_id : option str) (w w' : World) (ev : pydict) :
  truthy_str correlation_id = false ->
  _build_event self event_type level data service correlation_id actor w = (Ok ev, w') ->
  exists cid,
    dict_get (py "correlation_id") ev = Some (PStr cid)
    /\ cid = uuid_str (uuid4_int (urandom w (S (urandom_reads w))))
    /\ is_uuid4 cid = true
    /\ cid <> []
    /\ urandom_reads w' = S (S (urandom_reads w)).
Proof.
  intros Hcid H.
  destruct (_build_event_inv _ _ _ _ _ _ _ _ _ _ H) as (aj & dj & Haj & Hdj & -> & _).
  destruct (_build_event_returns self event_type level data service correlation_id
              actor w aj dj Haj Hdj) as (w1 & Hb & _ & Hreads).
  rewrite Hb in H. injection H as <-.
  rewrite Hcid in Hreads.
  exists (uuid_str (uuid4_int (urandom w (S (urandom_reads w))))).
  split; [unfold envelope; by rewrite Hcid|]. split; [reflexivity|].
  pose proof (uuid4_str_canonical (urandom w (S (urandom_reads w)))) as Hok.
  split; [exact Hok|]. split; [|exact Hreads].
  intros Hnil. rewrite Hnil in Hok. discriminate Hok.
Qed.

Lemma build_generates_correlation_id_witness :
  built_field (py "correlation_id")
    (_build_event (sample_logger ok_transport) (py "signup") (py "info")
       None None None None (fresh_world ∅ ok_transport))
  = Some (PStr (py "01234567-89ab-4def-8123-456789abcdf0")).
Proof.
  destruct (_build_event (sample_logger ok_transport) (py "signup") (py "info")
              None None None None (fresh_world ∅ ok_transport))
    as [[ev|e] w'] eqn:H.
  - destruct (build_generates_correlation_id _ _ _ _ _ _ None _ _ _ eq_refl H)
      as (cid & Hget & Hcid & _).
    cbn [built_field]. rewrite Hget, Hcid. vm_compute. reflexivity.
  - exfalso.
    destruct (_build_event_returns (sample_logger ok_transport) (py "signup")
                (py "info") None None None None (fresh_world ∅ ok_transport)
                (py "{}") (py "{}") eq_refl eq_refl) as (w1 & Hb & _).
    rewrite Hb in H. discriminate H.
Defined.

(** Every envelope has the nine keys of the schema, in order; it carries the
    event type and the level as they were passed and the environment of the
    logger, and its [actor] and [data] strings are what [json.dumps] returns
    for the arguments, an empty dict counting like an omitted one. *)
Theorem build_envelope_schema
    (self : EventLogger) (event_type level : str) (data actor : option pydict)
    (service correlation_id : option str) (w w' : World) (ev : pydict) :
  _build_event self event_type level data service correlation_id actor w = (Ok ev, w') ->
  ev.*1 = envelope_keys
  /\ dict_get (py "event_type") ev = Some (PStr event_type)
  /\ dict_get (py "level") ev = Some (PStr level)
  /\ dict_get (py "environment") ev = Some (val_of (environment self))
  /\ (exists actor_json,
        dict_get (py "actor") ev = Some (PStr actor_json)
        /\ json_dumps (PDict (default [] actor)) = Ok actor_json)
  /\ (exists data_json,
        dict_get (py "data") ev = Some (PStr data_json)
        /\ json_dumps (PDict (default [] data)) = Ok data_json).
Proof.
  intros H.
  destruct (_build_event_inv _ _ _ _ _ _ _ _ _ _ H) as (aj & dj & Haj & Hdj & -> & _).
  assert (Hsame : forall d : option pydict, or_empty_dict d = default [] d)
    by (by intros [[|kv d]|]).
  rewrite Hsame in Haj, Hdj.
  repeat split; try reflexivity; [by exists aj|by exists dj].
Qed.

Lemma build_envelope_schema_witness :
  exists ev w',
    _build_event (sample_logger ok_transport) (py "signup") (py "info")
      (Some [(py "seats", PInt 2)]) None None None (fresh_world ∅ ok_transport)
    = (Ok ev, w')
    /\ ev.*1 = envelope_keys
    /\ dict_get (py "data") ev = Some (PStr (py "{" ++ [34] ++ py "seats" ++ [34] ++ py ": 2}")).
Proof.
  destruct (_build_event (sample_logger ok_transport) (py "signup") (py "info")
              (Some [(py "seats", PInt 2)]) None None None
              (fresh_world ∅ ok_transport)) as [[ev|e] w'] eqn:H.
  - exists ev, w'. split; [reflexivity|].
    destruct (build_envelope_schema _ _ _ _ _ _ _ _ _ _ H)
      as (Hkeys & _ & _ & _ & _ & (dj & Hget & Hdj)).
    split; [exact Hkeys|]. rewrite Hget. do 2 f_equal.
    assert (Hd : json_dumps (PDict (default [] (Some [(py "seats", PInt 2)])))
                 = Ok (py "{" ++ [34] ++ py "seats" ++ [34] ++ py ": 2}"))
      by (vm_compute; reflexivity).
    rewrite Hd in Hdj. by injection Hdj as <-.
  - exfalso.
    destruct (_build_event_returns (sample_logger ok_transport) (py "signup")
                (py "info") (Some [(py "seats", PInt 2)]) None None None
                (fresh_world ∅ ok_transport)
                (py "{}") (py "{" ++ [34] ++ py "seats" ++ [34] ++ py ": 2}")
                eq_refl ltac:(vm_compute; reflexivity)) as (w1 & Hb & _).
    rewrite Hb in H. discriminate H.
Defined.

(* ===================================================================== *)
(** * Further properties: publishing *)
(* ===================================================================== *)

(** The payload of every envelope built is computed without error, whatever
    characters the event type, the level or the settings contain: it is the
    text [json.dumps] returns for the envelope, a JSON object written in
    ASCII only, one byte per character. *)
Theorem built_payload_is_ascii_json
    (self : EventLogger) (event_type level : str) (data actor : option pydict)
    (service correlation_id : option str) (w w' : World) (ev : pydict) :
  _build_event self event_type level data service correlation_id actor w = (Ok ev, w') ->
  exists text,
    json_dumps (PDict ev) = Ok text
    /\ payload_of ev = Ok text
    /\ json_object text
    /\ Forall (fun byte => byte < 128) text.
Proof.
  intros H.
  destruct (_build_event_inv _ _ _ _ _ _ _ _ _ _ H) as (aj & dj & _ & _ & -> & _).
  destruct (json_dumps_dict _
              (envelope_safe self event_type level service correlation_id w aj dj))
    as (text & Htext & Hobj & Hascii).
  exists text. split; [exact Htext|]. split; [|by split].
  unfold payload_of. rewrite Htext. cbn [result_bind]. by apply encode_utf8_ascii.
Qed.

Lemma built_payload_is_ascii_json_witness :
  exists ev w' text,
    _build_event (sample_logger ok_transport) (0x1F600 :: py "signup") (py "info")
      None None None None (fresh_world ∅ ok_transport) = (Ok ev, w')
    /\ payload_of ev = Ok text
    /\ json_object text.
Proof.
  destruct (_build_event_returns (sample_logger ok_transport) (0x1F600 :: py "signup")
              (py "info") None None None None (fresh_world ∅ ok_transport)
              (py "{}") (py "{}") eq_refl eq_refl) as (w1 & Hb & _).
  destruct (built_payload_is_ascii_json _ _ _ _ _ _ _ _ _ _ Hb)
    as (text & _ & Hp & Hobj & _).
  eexists _, w1, text. split; [exact Hb|]. split; [exact Hp|exact Hobj].
Defined.

(** When the transport accepts the payload, [log_event] returns the
    envelope with the future of the transport, having published to the topic
    path of the logger, and has written exactly two log records: the INFO
    line of the event and the DEBUG line of the publication. *)
Theorem log_event_success
    (self : EventLogger) (event_type level : str) (data actor : option pydict)
    (service correlation_id : option str) (w w1 : World) (ev : pydict)
    (payload : list N) (future : Future) :
  _build_event self event_type level data service correlation_id actor w = (Ok ev, w1) ->
  payload_of ev = Ok payload ->
  publish (publisher self) (topic_path self) payload = Ok future ->
  exists w',
    log_event self event_type level data service correlation_id actor w
    = (Ok (ev, Some future), w')
    /\ log_records w'
       = log_records w
           ++ [ (INFO, py "[EventLogger] " ++ event_type ++ py " " ++ level
                         ++ py " - " ++ event_id_text ev);
                (DEBUG, py "Published event " ++ event_id_text ev
                          ++ py " to " ++ topic_path self) ].
Proof.
  intros Hb Hp Hpublish.
  rewrite (log_event_run _ _ _ _ _ _ _ _ _ _ _ Hb Hp). cbn zeta.
  rewrite Hpublish. eexists. split; [reflexivity|].
  cbn [log_emit snd log_records].
  rewrite (_build_event_logs _ _ _ _ _ _ _ _ _ _ Hb). by rewrite <- app_assoc.
Qed.

Lemma log_event_success_witness :
  exists ev w',
    log_event (sample_logger ok_transport) (py "signup") (py "info")
      None None None None (fresh_world ∅ ok_transport)
    = (Ok (ev, Some (MkFuture 1)), w')
    /\ length (log_records w') = 2%nat.
Proof.
  destruct (_build_event_returns (sample_logger ok_transport) (py "signup")
              (py "info") None None None None (fresh_world ∅ ok_transport)
              (py "{}") (py "{}") eq_refl eq_refl) as (w1 & Hb & _).
  destruct (envelope_payload (sample_logger ok_transport) (py "signup") (py "info")
              None None (fresh_world ∅ ok_transport) (py "{}") (py "{}"))
    as (text & Hp & _).
  destruct (log_event_success _ _ _ _ _ _ _ _ _ _ text (MkFuture 1) Hb Hp eq_refl)
    as (w' & Hlog & Hrecords).
  eexists _, w'. split; [exact Hlog|]. rewrite Hrecords. reflexivity.
Defined.

(** A failure of the transport that is not an [Exception] (an interrupt, an
    exit request) is not swallowed: [log_event] raises it again, after the
    INFO line and without an ERROR record. *)
Theorem log_event_reraises_non_Exception
    (self : EventLogger) (event_type level : str) (data actor : option pydict)
    (service correlation_id : option str) (w w1 : World) (ev : pydict)
    (payload : list N) (e : exn) :
  _build_event self event_type level data service correlation_id actor w = (Ok ev, w1) ->
  payload_of ev = Ok payload ->
  publish (publisher self) (topic_path self) payload = Raise e ->
  is_Exception e = false ->
  exists w',
    log_event self event_type level data service correlation_id actor w = (Raise e, w')
    /\ log_records w'
       = log_records w
           ++ [ (INFO, py "[EventLogger] " ++ event_type ++ py " " ++ level
                         ++ py " - " ++ event_id_text ev) ].
Proof.
  intros Hb Hp Hpublish He.
  rewrite (log_event_run _ _ _ _ _ _ _ _ _ _ _ Hb Hp). cbn zeta.
  rewrite Hpublish, He. eexists. split; [reflexivity|].
  cbn [log_emit snd log_records].
  by rewrite (_build_event_logs _ _ _ _ _ _ _ _ _ _ Hb).
Qed.

Lemma log_event_reraises_non_Exception_witness :
  (log_event (sample_logger interrupted_transport) (py "signup") (py "info")
     None None None None (fresh_world ∅ interrupted_transport)).1
  = Raise (BaseExceptionOnly (py "KeyboardInterrupt") []).
Proof.
  destruct (_build_event_returns (sample_logger interrupted_transport) (py "signup")
              (py "info") None None None None (fresh_world ∅ interrupted_transport)
              (py "{}") (py "{}") eq_refl eq_refl) as (w1 & Hb & _).
  destruct (envelope_payload (sample_logger interrupted_transport) (py "signup")
              (py "info") None None (fresh_world ∅ interrupted_transport)
              (py "{}") (py "{}"))
    as (text & Hp & _).
  destruct (log_event_reraises_non_Exception _ _ _ _ _ _ _ _ _ _ text
              (BaseExceptionOnly (py "KeyboardInterrupt") []) Hb Hp eq_refl eq_refl)
    as (w' & Hlog & _).
  rewrite Hlog. reflexivity.
Defined.

(** When [json.dumps] raises on the actor, or returns for the actor and
    raises on the data, [log_event] raises that exception; nothing has been
    logged, so nothing has been handed to the transport. *)
Theorem log_event_unserialisable
    (self : EventLogger) (event_type level : str) (data actor : option pydict)
    (service correlation_id : option str) (w : World) (e : exn) :
  json_dumps (PDict (or_empty_dict actor)) = Raise e
  \/ (exists actor_json,
        json_dumps (PDict (or_empty_dict actor)) = Ok actor_json
        /\ json_dumps (PDict (or_empty_dict data)) = Raise e) ->
  exists w',
    log_event self event_type level data service correlation_id actor w = (Raise e, w')
    /\ log_records w' = log_records w
    /\ _event_logger w' = _event_logger w.
Proof.
  intros Hfail.
  assert (Hb : exists w',
             _build_event self event_type level data service correlation_id actor w
             = (Raise e, w')).
  { unfold _build_event. run.
    destruct Hfail as [Ha|(aj & Ha & Hd)];
      destruct (truthy_str correlation_id); run; rewrite Ha; run;
      try rewrite Hd; run; by eexists. }
  destruct Hb as (w' & Hb). exists w'.
  split; [by apply log_event_build_raises|].
  split; [by eapply _build_event_logs|by eapply _build_event_global].
Qed.

Lemma log_event_unserialisable_witness :
  (log_event (sample_logger ok_transport) (py "signup") (py "info")
     (Some [(py "when", PObject (py "datetime"))]) None None None
     (fresh_world ∅ ok_transport)).1
  = Raise (TypeError (py "Object of type datetime is not JSON serializable")).
Proof.
  destruct (log_event_unserialisable (sample_logger ok_transport) (py "signup")
              (py "info") (Some [(py "when", PObject (py "datetime"))]) None None None
              (fresh_world ∅ ok_transport)
              (TypeError (py "Object of type datetime is not JSON serializable")))
    as (w' & Hlog & _).
  - right. exists (py "{}"). split; reflexivity.
  - rewrite Hlog. reflexivity.
Defined.

(** No operation of either logger assigns the module global: only
    [init_event_logger] installs a logger. *)
Theorem call_keeps_holder (l : AnyLogger) (op : operation) (a : call_args)
    (w w' : World) (r : result (pydict * option Future)) :
  call l op a w = (r, w') -> _event_logger w' = _event_logger w.
Proof.
  destruct l as [self|]; [|by intros [= <- <-]].
  destruct op; cbn [call]; unfold log, debug, info, warning, error;
    apply log_event_global.
Qed.

Lemma call_keeps_holder_witness :
  _event_logger
    (call (Real (sample_logger ok_transport)) op_error
       {| arg_event_type := py "refund"; arg_level := []; arg_correlation_id := None;
          arg_data := None; arg_actor := None; arg_service := None |}
       (fresh_world ∅ ok_transport)).2
  = None.
Proof.
  destruct (call (Real (sample_logger ok_transport)) op_error
              {| arg_event_type := py "refund"; arg_level := [];
                 arg_correlation_id := None; arg_data := None; arg_actor := None;
                 arg_service := None |} (fresh_world ∅ ok_transport))
    as [r w'] eqn:H.
  cbn [snd]. by rewrite (call_keeps_holder _ _ _ _ _ _ H).
Defined.

(** The generic [log] method passes any level through, also one outside the
    four fixed ones: with valid [data] and [actor] and a transport whose
    failures are exceptions it returns an envelope with that level and the
    given event type. *)
Theorem log_passes_level_through
    (self : EventLogger) (level event_type : str) (correlation_id : option str)
    (data actor : option pydict) (service : option str) (w : World) :
  valid_mapping data = true -> valid_mapping actor = true ->
  raises_only_Exception (publisher self) ->
  exists ev fut w',
    log self level event_type correlation_id data actor service w = (Ok (ev, fut), w')
    /\ dict_get (py "level") ev = Some (PStr level)
    /\ dict_get (py "event_type") ev = Some (PStr event_type).
Proof.
  intros Hd Ha Hpub.
  assert (Hd' : valid_mapping (Some (or_empty_dict data)) = true)
    by (by destruct data as [[|kv d]|]).
  destruct (log_event_returns self event_type level (Some (or_empty_dict data))
              service correlation_id actor w Hd' Ha Hpub)
    as (ev & fut & w1 & w' & Hb & Hlog).
  exists ev, fut, w'. split; [exact Hlog|].
  destruct (_build_event_inv _ _ _ _ _ _ _ _ _ _ Hb) as (aj & dj & _ & _ & -> & _).
  split; reflexivity.
Qed.

Lemma log_passes_level_through_witness :
  exists ev fut w',
    log (sample_logger ok_transport) (py "critical") (py "payment_failed")
      None None None None (fresh_world ∅ ok_transport) = (Ok (ev, fut), w')
    /\ dict_get (py "level") ev = Some (PStr (py "critical"))
    /\ dict_get (py "event_type") ev = Some (PStr (py "payment_failed")).
Proof.
  refine (log_passes_level_through (sample_logger ok_transport) (py "critical")
            (py "payment_failed") None None None None (fresh_world ∅ ok_transport)
            eq_refl eq_refl ok_transport_raises_only_Exception).
Defined.

(* ===================================================================== *)
(** * Further properties: the timestamp *)
(* ===================================================================== *)

Lemma datetime_ok_bounds d :
  datetime_ok d = true ->
  year d < 10000 /\ month d < 100 /\ day d < 100 /\ hour d < 100
  /\ minute d < 100 /\ second d < 100 /\ microsecond d < 1000000.
Proof.
  unfold datetime_ok. rewrite !andb_true_iff, !N.leb_le.
  intros (((((((((HY1 & HY2) & HM1) & HM2) & HD1) & HD2) & Hh) & Hmi) & Hse) & Hus).
  assert (day d <= 31).
  { etrans; [exact HD2|]. unfold days_in_month.
    repeat match goal with |- context [if ?b then _ else _] => destruct b end; lia. }
  lia.
Qed.

Lemma parse_iso_body d :
  datetime_ok d = true -> parse_utc_timestamp (iso_body d ++ py "Z") = Some d.
Proof.
  intros Hok. destruct (datetime_ok_bounds d Hok) as (HY & HM & HD & Hh & Hmi & Hse & Hus).
  destruct d as [Y Mo D h mi se us].
  cbn [year month day hour minute second microsecond] in *.
  unfold parse_utc_timestamp, iso_body.
  cbn [year month day hour minute second microsecond].
  change (py "-") with [45]; change (py "T") with [84];
    change (py ":") with [58]; change (py ".") with [46];
    change (py "Z") with [90].
  rewrite <- !app_assoc.
  rewrite (read_fmt_0d 3) by (vm_compute (10 ^ _); lia).
  cbn [mbind option_bind]. rewrite expect_head.
  do 4 (cbn [mbind option_bind];
        rewrite (read_fmt_0d 1) by (vm_compute (10 ^ _); lia);
        cbn [mbind option_bind]; rewrite expect_head).
  cbn [mbind option_bind].
  rewrite (read_fmt_0d 1) by (vm_compute (10 ^ _); lia).
  cbn [mbind option_bind].
  destruct (N.eqb_spec us 0) as [->|Hnz]; [reflexivity|].
  cbn [app]. rewrite (read_fmt_0d 5) by (vm_compute (10 ^ _); lia).
  reflexivity.
Qed.

Lemma iso_body_length d :
  datetime_ok d = true ->
  length (iso_body d ++ py "Z") = if microsecond d =? 0 then 20%nat else 27%nat.
Proof.
  intros Hok. destruct (datetime_ok_bounds d Hok) as (HY & HM & HD & Hh & Hmi & Hse & Hus).
  unfold iso_body. rewrite !length_app.
  rewrite (fmt_0d_length 3) by (vm_compute (10 ^ _); lia).
  rewrite !(fmt_0d_length 1) by (vm_compute (10 ^ _); lia).
  destruct (microsecond d =? 0); [reflexivity|].
  rewrite length_app, (fmt_0d_length 5) by (vm_compute (10 ^ _); lia).
  reflexivity.
Qed.

(** Reading [created_at] back gives the clock reading of the build, to the
    microsecond: nothing of the reading is lost, and two readings that differ
    give different timestamps. *)
Theorem build_created_at_round_trip
    (self : EventLogger) (event_type level : str) (data actor : option pydict)
    (service correlation_id : option str) (w w' : World) (ev : pydict) :
  datetime_ok (clock w (clock_reads w)) = true ->
  _build_event self event_type level data service correlation_id actor w = (Ok ev, w') ->
  exists ts,
    dict_get (py "created_at") ev = Some (PStr ts)
    /\ parse_utc_timestamp ts = Some (clock w (clock_reads w)).
Proof.
  intros Hclock H.
  destruct (_build_event_inv _ _ _ _ _ _ _ _ _ _ H) as (aj & dj & _ & _ & -> & _).
  eexists. split; [reflexivity|]. rewrite created_at_eq. by apply parse_iso_body.
Qed.

Lemma build_created_at_round_trip_witness :
  exists ev w' ts,
    _build_event (sample_logger ok_transport) (py "signup") (py "info")
      None None None None (fresh_world ∅ ok_transport) = (Ok ev, w')
    /\ dict_get (py "created_at") ev = Some (PStr ts)
    /\ parse_utc_timestamp ts = Some sample_clock.
Proof.
  destruct (_build_event_returns (sample_logger ok_transport) (py "signup")
              (py "info") None None None None (fresh_world ∅ ok_transport)
              (py "{}") (py "{}") eq_refl eq_refl) as (w1 & Hb & _).
  destruct (build_created_at_round_trip _ _ _ _ _ _ _ (fresh_world ∅ ok_transport)
              _ _ eq_refl Hb)
    as (ts & Hget & Hparse).
  eexists _, w1, ts. split; [exact Hb|]. split; [exact Hget|exact Hparse].
Defined.

(** The fraction of [created_at] is all or nothing: six digits of
    microseconds (27 characters in all) when the clock reading has a non-zero
    microsecond, and no fraction at all (20 characters) when it is zero. *)
Theorem build_created_at_precision
    (self : EventLogger) (event_type level : str) (data actor : option pydict)
    (service correlation_id : option str) (w w' : World) (ev : pydict) :
  datetime_ok (clock w (clock_reads w)) = true ->
  _build_event self event_type level data service correlation_id actor w = (Ok ev, w') ->
  exists ts,
    dict_get (py "created_at") ev = Some (PStr ts)
    /\ length ts
       = (if microsecond (clock w (clock_reads w)) =? 0 then 20%nat else 27%nat).
Proof.
  intros Hclock H.
  destruct (_build_event_inv _ _ _ _ _ _ _ _ _ _ H) as (aj & dj & _ & _ & -> & _).
  eexists. split; [reflexivity|]. rewrite created_at_eq.
  by apply iso_body_length.
Qed.

Lemma build_created_at_precision_witness :
  exists ts,
    built_field (py "created_at")
      (_build_event (sample_logger ok_transport) (py "signup") (py "info")
         None None None None whole_second_world)
    = Some (PStr ts)
    /\ length ts = 20%nat.
Proof.
  destruct (_build_event_returns (sample_logger ok_transport) (py "signup")
              (py "info") None None None None whole_second_world
              (py "{}") (py "{}") eq_refl eq_refl) as (w1 & Hb & _).
  destruct (build_created_at_precision _ _ _ _ _ _ _ whole_second_world _ _
              eq_refl Hb) as (ts & Hget & Hlen).
  exists ts. rewrite Hb. cbn [built_field]. split; [exact Hget|].
  rewrite Hlen. reflexivity.
Defined.

(* ===================================================================== *)
(** * Further properties: flat envelopes and identifier collisions *)
(* ===================================================================== *)

(** In an envelope built by a logger the constructor returned, all nine
    values are strings: none is [None] or a nested structure. *)
Theorem built_envelope_is_flat
    (p_project p_topic p_environment p_service p_credentials : option str)
    (w0 w1 : World) (self : EventLogger)
    (event_type level : str) (data actor : option pydict)
    (service correlation_id : option str) (w w' : World) (ev : pydict) :
  EventLogger_init p_project p_topic p_environment p_service p_credentials w0
  = (Ok self, w1) ->
  _build_event self event_type level data service correlation_id actor w = (Ok ev, w') ->
  length ev = 9%nat
  /\ Forall (fun kv => exists s, kv.2 = PStr s) ev.
Proof.
  intros Hinit H.
  destruct (EventLogger_init_configured _ _ _ _ _ _ _ _ Hinit)
    as (_ & _ & He & Hs & _).
  destruct (_build_event_inv _ _ _ _ _ _ _ _ _ _ H) as (aj & dj & _ & _ & -> & _).
  split; [reflexivity|].
  assert (Hsvc : exists s, val_of (or_str service (service_name self)) = PStr s).
  { unfold or_str. destruct (truthy_str service) eqn:Hsv.
    - destruct service as [s|]; [by exists s|done].
    - destruct (service_name self) as [s|]; [by exists s|done]. }
  assert (Henv : exists s, val_of (environment self) = PStr s).
  { destruct (environment self) as [s|]; [by exists s|done]. }
  unfold envelope. repeat constructor; cbn [snd]; try done; by eexists.
Qed.

Lemma sample_init_empty_service_override :
  exists self w1,
    EventLogger_init None None None None None (fresh_world full_env ok_transport)
    = (Ok self, w1).
Proof.
  destruct (EventLogger_init None None None None None
              (fresh_world full_env ok_transport)) as [[self|e] w1] eqn:H.
  - by exists self, w1.
  - exfalso. revert H. rewrite EventLogger_init_run. vm_compute. discriminate.
Qed.

Lemma built_envelope_is_flat_witness :
  exists self w1 ev w',
    EventLogger_init None None None None None (fresh_world full_env ok_transport)
    = (Ok self, w1)
    /\ _build_event self (py "signup") (py "info") None (Some []) None None w1
       = (Ok ev, w')
    /\ length ev = 9%nat
    /\ Forall (fun kv => exists s, kv.2 = PStr s) ev.
Proof.
  destruct sample_init_empty_service_override as (self & w1 & Hinit).
  destruct (_build_event_returns self (py "signup") (py "info") None (Some []) None
              None w1 (py "{}") (py "{}") eq_refl eq_refl) as (w' & Hb & _).
  destruct (built_envelope_is_flat _ _ _ _ _ _ _ _ _ _ _ _ _ _ _ _ _ Hinit Hb)
    as (Hlen & Hflat).
  eexists self, w1, _, w'. split; [exact Hinit|]. split; [exact Hb|].
  split; [exact Hlen|exact Hflat].
Defined.

(* --------------------------------------------------------------------- *)
(** ** Identifier collisions *)

Lemma hex_value_digit_char d : d < 16 -> hex_value (digit_char d) = d.
Proof.
  intros H. unfold hex_value, digit_char.
  destruct (N.ltb_spec d 10).
  - destruct (N.ltb_spec (48 + d) 58); lia.
  - destruct (N.ltb_spec (87 + d) 58); lia.
Qed.

Lemma fixed_digits_value k n :
  fold_left hex_step (fixed_digits 16 k n) 0 = n mod 16 ^ N.of_nat k.
Proof.
  revert n. induction k as [|k IH]; intros n.
  - cbn. by rewrite N.mod_1_r.
  - cbn [fixed_digits]. rewrite fold_left_app, IH. cbn [fold_left].
    unfold hex_step. rewrite hex_value_digit_char by (apply N.mod_lt; lia).
    rewrite Nat2N.inj_succ, N.pow_succ_r'.
    rewrite (N.Div0.mod_mul_r n 16 (16 ^ N.of_nat k)). lia.
Qed.

Lemma uuid_hex_str i : uuid_hex (uuid_str i) = fmt_0x 32 i \/ 2 ^ 128 <= i.
Proof.
  destruct (N.lt_ge_cases i (2 ^ 128)) as [Hi|Hi]; [left|by right].
  unfold uuid_str, fmt_0x. rewrite (zfill_to_base 16 31) by (lia || exact Hi).
  pose proof (fixed_digits_length 16 32 i) as Hlen.
  revert Hlen. generalize (fixed_digits 16 32 i). intros hex Hlen.
  do 32 (destruct hex as [|? hex]; [discriminate Hlen|]).
  destruct hex; [|discriminate Hlen]. reflexivity.
Qed.

(** Reading the text of a generated UUID back gives its 128-bit integer. *)
Lemma uuid_int_of_str_uuid4 r : uuid_int_of_str (uuid_str (uuid4_int r)) = uuid4_int r.
Proof.
  unfold uuid_int_of_str.
  destruct (uuid_hex_str (uuid4_int r)) as [->|Hbig];
    [|pose proof (uuid4_int_bound r); lia].
  unfold fmt_0x. rewrite (zfill_to_base 16 31) by (lia || apply uuid4_int_bound).
  rewrite fixed_digits_value. apply N.mod_small.
  change (16 ^ N.of_nat 32) with (2 ^ 128). apply uuid4_int_bound.
Qed.

Lemma small_cases16 m :
  m < 16 ->
  m = 0 \/ m = 1 \/ m = 2 \/ m = 3 \/ m = 4 \/ m = 5 \/ m = 6 \/ m = 7 \/ m = 8
  \/ m = 9 \/ m = 10 \/ m = 11 \/ m = 12 \/ m = 13 \/ m = 14 \/ m = 15.
Proof. lia. Qed.

(** The bits of a 16-bit constant shifted left, by enumeration. *)
Lemma shifted_constant_bit (c k n : N) (set : N -> bool) :
  c < 2 ^ 16 ->
  (forall m, m < 16 -> N.testbit c m = set m) ->
  N.testbit (N.shiftl c k) n
  = if n <? k then false else if n - k <? 16 then set (n - k) else false.
Proof.
  intros Hc Hset. destruct (N.ltb_spec n k) as [Hlt|Hge].
  - by apply N.shiftl_spec_low.
  - rewrite N.shiftl_spec_high' by done.
    destruct (N.ltb_spec (n - k) 16) as [Hm|Hm]; [by apply Hset|].
    destruct (N.eq_dec c 0) as [->|Hnz]; [apply N.bits_0|].
    apply N.bits_above_log2.
    assert (N.log2 c < 16) by (apply N.log2_lt_pow2; lia). lia.
Qed.

Lemma forced_bits_elsewhere n :
  n <> 62 -> n <> 63 -> n <> 76 -> n <> 77 -> n <> 78 -> n <> 79 ->
  N.testbit (N.shiftl 0xc000 48) n = false
  /\ N.testbit (N.shiftl 0x8000 48) n = false
  /\ N.testbit (N.shiftl 0xf000 64) n = false
  /\ N.testbit (N.shiftl 4 76) n = false.
Proof.
  intros H62 H63 H76 H77 H78 H79.
  rewrite (shifted_constant_bit 0xc000 48 n (fun m => (m =? 14) || (m =? 15)));
    [|done|intros m Hm;
           destruct (small_cases16 m Hm)
             as [->|[->|[->|[->|[->|[->|[->|[->|[->|[->|[->|[->|[->|[->|[->| ->]]]]]]]]]]]]]]];
           reflexivity].
  rewrite (shifted_constant_bit 0x8000 48 n (fun m => m =? 15));
    [|done|intros m Hm;
           destruct (small_cases16 m Hm)
             as [->|[->|[->|[->|[->|[->|[->|[->|[->|[->|[->|[->|[->|[->|[->| ->]]]]]]]]]]]]]]];
           reflexivity].
  rewrite (shifted_constant_bit 0xf000 64 n
             (fun m => (m =? 12) || (m =? 13) || (m =? 14) || (m =? 15)));
    [|done|intros m Hm;
           destruct (small_cases16 m Hm)
             as [->|[->|[->|[->|[->|[->|[->|[->|[->|[->|[->|[->|[->|[->|[->| ->]]]]]]]]]]]]]]];
           reflexivity].
  rewrite (shifted_constant_bit 4 76 n (fun m => m =? 2));
    [|done|intros m Hm;
           destruct (small_cases16 m Hm)
             as [->|[->|[->|[->|[->|[->|[->|[->|[->|[->|[->|[->|[->|[->|[->| ->]]]]]]]]]]]]]]];
           reflexivity].
  repeat split;
    repeat match goal with
           | |- context [?a <? ?b] => destruct (N.ltb_spec a b)
           | |- context [?a =? ?b] => destruct (N.eqb_spec a b)
           end; try reflexivity; lia.
Qed.

(** Two envelopes, built anywhere, have the same event id only if the random
    bytes behind them denote the same UUID, that is, agree on all 122 bits
    that [uuid4] does not force. *)
Theorem event_ids_collide_only_with_entropy
    (self1 self2 : EventLogger) (event_type1 level1 event_type2 level2 : str)
    (data1 actor1 data2 actor2 : option pydict)
    (service1 correlation_id1 service2 correlation_id2 : option str)
    (w1 w1' w2 w2' : World) (ev1 ev2 : pydict) :
  _build_event self1 event_type1 level1 data1 service1 correlation_id1 actor1 w1
  = (Ok ev1, w1') ->
  _build_event self2 event_type2 level2 data2 service2 correlation_id2 actor2 w2
  = (Ok ev2, w2') ->
  dict_get (py "event_id") ev1 = dict_get (py "event_id") ev2 ->
  uuid4_int (urandom w1 (urandom_reads w1)) = uuid4_int (urandom w2 (urandom_reads w2))
  /\ (forall n, n < 128 -> n <> 62 -> n <> 63 -> n <> 76 -> n <> 77 -> n <> 78 ->
      n <> 79 ->
      N.testbit (urandom w1 (urandom_reads w1)) n
      = N.testbit (urandom w2 (urandom_reads w2)) n).
Proof.
  intros H1 H2 Heq.
  destruct (_build_event_inv _ _ _ _ _ _ _ _ _ _ H1) as (aj1 & dj1 & _ & _ & -> & _).
  destruct (_build_event_inv _ _ _ _ _ _ _ _ _ _ H2) as (aj2 & dj2 & _ & _ & -> & _).
  assert (Hid : uuid_str (uuid4_int (urandom w1 (urandom_reads w1)))
                = uuid_str (uuid4_int (urandom w2 (urandom_reads w2))))
    by exact (f_equal (fun v => match v with Some (PStr t) => t | _ => [] end) Heq).
  clear Heq.
  apply (f_equal uuid_int_of_str) in Hid.
  rewrite !uuid_int_of_str_uuid4 in Hid.
  split; [exact Hid|].
  intros n Hn H62 H63 H76 H77 H78 H79.
  apply (f_equal (fun i => N.testbit i n)) in Hid. cbv beta in Hid.
  rewrite !uuid4_int_bit in Hid.
  rewrite (N.ones_spec_low 128 n) in Hid by done.
  destruct (forced_bits_elsewhere n H62 H63 H76 H77 H78 H79) as (E1 & E2 & E3 & E4).
  rewrite E1, E2, E3, E4 in Hid.
  cbn [negb] in Hid.
  by rewrite !andb_true_r, !orb_false_r in Hid.
Qed.

Lemma event_ids_collide_only_with_entropy_witness :
  exists ev w',
    _build_event (sample_logger ok_transport) (py "signup") (py "info")
      None None None None (fresh_world ∅ ok_transport) = (Ok ev, w')
    /\ uuid4_int (urandom (fresh_world ∅ ok_transport) 0%nat)
       = uuid4_int (urandom (fresh_world ∅ ok_transport) 0%nat).
Proof.
  destruct (_build_event_returns (sample_logger ok_transport) (py "signup")
              (py "info") None None None None (fresh_world ∅ ok_transport)
              (py "{}") (py "{}") eq_refl eq_refl) as (w1 & Hb & _).
  destruct (event_ids_collide_only_with_entropy _ _ _ _ _ _ _ _ _ _ _ _ _ _ _ _ _ _
              _ _ Hb Hb eq_refl) as (Hint & _).
  eexists _, w1. split; [exact Hb|exact Hint].
Defined.
